(** * makeline-service: the HTTP boundary and the repository factory

    A shallow embedding of [main.go]: the four order handlers, the
    middleware that injects the order service, [getEnvVar] and
    [initDatabase].  Go strings are byte strings ([string] of 8-bit
    [ascii]); Go's [int] is the 64-bit one and is carried as a [Z] that the
    parsing function keeps in range. *)

From Stdlib Require Import ZArith Lia Ascii String List Bool.
From stdpp Require Import gmap strings.
Import ListNotations.

Local Open Scope string_scope.
Local Open Scope Z_scope.

(** ** strconv: the two library functions the handlers call *)

Module strconv.

Definition intSize : Z := 64.
Definition maxInt : Z := 2 ^ (intSize - 1) - 1.
Definition minInt : Z := - 2 ^ (intSize - 1).

(** The digit loop shared by both paths of [strconv.Atoi]:
    [ch -= '0'; if ch > 9 { return syntax error }; n = n*10 + int(ch)],
    with the byte subtraction wrapping around modulo 256. *)
Fixpoint parseDigits (s : string) (n : Z) : option Z :=
  match s with
  | EmptyString => Some n
  | String ch s' =>
      let d := (Z.of_N (N_of_ascii ch) - 48) mod 256 in
      if 9 <? d then None else parseDigits s' (n * 10 + d)
  end.

(** [strconv.Atoi] in base 10: an optional sign, then at least one digit,
    and the value has to fit the [int] type.  Both kinds of error
    (syntax, range) are [None]: the handlers only test [err != nil]. *)
Definition Atoi (s : string) : option Z :=
  match s with
  | EmptyString => None
  | String s0 rest =>
      let neg := Ascii.eqb s0 "-" in
      let digits := if neg || Ascii.eqb s0 "+" then rest else s in
      match digits with
      | EmptyString => None
      | String _ _ =>
          match parseDigits digits 0 with
          | None => None
          | Some u =>
              let n := if neg then - u else u in
              if (minInt <=? n) && (n <=? maxInt) then Some n else None
          end
      end
  end.

Definition digitChar (d : Z) : ascii := ascii_of_N (Z.to_N (48 + d)).

(** The base-10 loop of [formatBits]:
    [for u >= 10 { q := u / 10; a[i] = byte('0' + u - q*10); u = q }]
    followed by [a[i] = byte('0' + u)].  The digits are written from the
    end of a fixed buffer; [fuel] is the room left in it. *)
Fixpoint formatBits (fuel : nat) (u : Z) (a : string) : string :=
  match fuel with
  | O => a
  | S fuel' =>
      if 10 <=? u
      then let q := u / 10 in
           formatBits fuel' q (String (digitChar (u - q * 10)) a)
      else String (digitChar u) a
  end.

(** Twenty decimal digits hold every 64-bit magnitude. *)
Definition bufDigits : nat := 20.

(** [strconv.FormatInt(i, 10)]: the magnitude, with a minus sign in front
    of a negative number. *)
Definition FormatInt (i : Z) : string :=
  if i <? 0
  then String "-" (formatBits bufDigits (- i) EmptyString)
  else formatBits bufDigits i EmptyString.

End strconv.

(** ** Shapes of identifier strings, as the specification words them *)

Definition isDigit (c : ascii) : bool :=
  let n := Z.of_N (N_of_ascii c) in (48 <=? n) && (n <=? 57).

Fixpoint allDigits (s : string) : bool :=
  match s with
  | EmptyString => true
  | String c r => isDigit c && allDigits r
  end.

(** A leading [+] or [-]. *)
Definition hasSign (s : string) : bool :=
  match s with
  | String c _ => Ascii.eqb c "-" || Ascii.eqb c "+"
  | EmptyString => false
  end.

Definition dropSign (s : string) : string :=
  match s with
  | String c r => if Ascii.eqb c "-" || Ascii.eqb c "+" then r else s
  | EmptyString => s
  end.

(** A zero digit in front of further characters. *)
Definition hasLeadingZero (s : string) : bool :=
  match dropSign s with
  | String c (String _ _) => Ascii.eqb c "0"
  | _ => false
  end.

(** The specification's normal form: digits only (so no sign), at least
    one of them, and no zero in front of another digit. *)
Definition normalized (s : string) : bool :=
  negb (hasSign s) && negb (hasLeadingZero s)
  && allDigits s && negb (String.eqb s EmptyString).

(** What the handlers produce: the normal form of the magnitude, behind a
    minus sign when the integer is negative (never a plus sign). *)
Definition canonical (s : string) : bool :=
  match s with
  | String c r =>
      if Ascii.eqb c "-"
      then normalized r && negb (String.eqb r "0")
      else normalized s
  | EmptyString => false
  end.

(** ** Data model *)

(** Go's [error] values carry a message. *)
Definition error : Type := string.

(** A Go result pair [(T, error)]: either the value with a [nil] error, or
    the error. *)
Inductive Result (A : Type) : Type :=
| Ok (a : A)
| Err (e : error).
Arguments Ok {A} a.
Arguments Err {A} e.

(** Modelled from the spec: the [Status] type is declared outside
    [main.go]; the handler converts an [int] to it with [Status(s)], so it
    is an integer type whose named values are Pending(0), Processing(1)
    and Complete(2). *)
Definition Status : Type := Z.
Definition Pending : Status := 0.
Definition Processing : Status := 1.
Definition Complete : Status := 2.

(** The specification's valid range of a status. *)
Definition validStatus (s : Status) : bool := (0 <=? s) && (s <=? 2).

(** Modelled from the spec: the [Order] struct is declared outside
    [main.go]; section 3 of the specification gives its four fields, and
    [updateOrder] names them.  Line items are opaque to this code. *)
Record Order (Item : Type) : Type := mkOrder {
  OrderID : string;
  CustomerID : string;
  Items : list Item;
  Status_ : Status
}.
Arguments mkOrder {Item} _ _ _ _.
Arguments OrderID {Item} _.
Arguments CustomerID {Item} _.
Arguments Items {Item} _.
Arguments Status_ {Item} _.

(** Modelled from the spec: the repository interface of section 4.1, the
    five operations the handlers call through [client.repo].  Each
    operation runs against the backing store, whose state it may change. *)
Record OrderRepo (Item Store : Type) : Type := mkOrderRepo {
  InsertOrders : list (Order Item) -> Store -> Result unit * Store;
  GetPendingOrders : Store -> Result (list (Order Item)) * Store;
  GetOrdersByStatus : Status -> Store -> Result (list (Order Item)) * Store;
  GetOrder : string -> Store -> Result (Order Item) * Store;
  UpdateOrder : Order Item -> Store -> Result unit * Store
}.
Arguments mkOrderRepo {Item Store} _ _ _ _ _.
Arguments InsertOrders {Item Store} _ _ _.
Arguments GetPendingOrders {Item Store} _ _.
Arguments GetOrdersByStatus {Item Store} _ _ _.
Arguments GetOrder {Item Store} _ _ _.
Arguments UpdateOrder {Item Store} _ _ _.

(** Modelled from the spec: the partition key is a (key-name, key-value)
    pair; [initDatabase] builds it positionally. *)
Record PartitionKey : Type := mkPartitionKey {
  pkName : string;
  pkValue : string
}.

(** The code of the repository that [main.go] calls and that lives in
    other files: the line-item type, the state of the backing store and
    of the queue, the queue client, the JSON decoder behind [BindJSON],
    and the three backend constructors. *)
Class Collaborators : Type := {
  Item : Type;
  Store : Type;
  getOrdersFromQueue : Store -> Result (list (Order Item)) * Store;
  unmarshalOrder : string -> Result (Order Item);
  NewCosmosDBOrderRepoWithManagedIdentity :
    string -> string -> string -> PartitionKey -> Result (OrderRepo Item Store);
  NewCosmosDBOrderRepo :
    string -> string -> string -> string -> PartitionKey ->
    Result (OrderRepo Item Store);
  NewMongoDBOrderRepo :
    string -> string -> string -> string -> string ->
    Result (OrderRepo Item Store)
}.

(** Modelled from the spec: the Order Service facade of section 4.5 holds
    one repository reference; the handlers read it as [client.repo]. *)
Record OrderService `{Collaborators} : Type := mkOrderService {
  repo : OrderRepo Item Store
}.

Definition NewOrderService `{Collaborators} (r : OrderRepo Item Store)
  : OrderService := {| repo := r |}.

(** ** net/http status codes used by the handlers *)

Module http.
Definition StatusOK : Z := 200.
Definition StatusAccepted : Z := 202.
Definition StatusBadRequest : Z := 400.
Definition StatusInternalServerError : Z := 500.
End http.

(** ** gin: the request context as the handlers use it *)

(** What one request carries: the URL query (Go's [url.Values], a map from
    a key to the values given for it), the path parameters matched by the
    router, and the raw body. *)
Record Request : Type := mkRequest {
  reqQuery : gmap string (list string);
  reqParams : list (string * string);
  reqBody : string
}.

(** The response writer of gin: the pending status code, the status that
    went out with the header once it has been sent, and the body written
    so far. *)
Record ResponseWriter (Body : Type) : Type := mkWriter {
  wStatus : Z;
  wSent : option Z;
  wBody : list Body
}.
Arguments mkWriter {Body} _ _ _.
Arguments wStatus {Body} _.
Arguments wSent {Body} _.
Arguments wBody {Body} _.

Module writer.
Section Writer.
Context {Body : Type}.

(** gin starts every response at 200, nothing sent. *)
Definition fresh : ResponseWriter Body := mkWriter 200 None [].

(** [Written]: has the header gone out? *)
Definition Written (w : ResponseWriter Body) : bool :=
  match wSent w with
  | Some _ => true
  | None => false
  end.

(** [WriteHeader]: changes the pending status unless the header has
    already gone out, in which case gin only logs the warning
    [Headers were already written. Wanted to override status code ...]
    and the status that went out stays. *)
Definition WriteHeader (code : Z) (w : ResponseWriter Body)
  : ResponseWriter Body :=
  if (0 <? code) && negb (wStatus w =? code)
  then if Written w then w
       else mkWriter code (wSent w) (wBody w)
  else w.

(** [WriteHeaderNow]: sends the header with the pending status, once. *)
Definition WriteHeaderNow (w : ResponseWriter Body) : ResponseWriter Body :=
  if Written w then w
  else mkWriter (wStatus w) (Some (wStatus w)) (wBody w).

(** [Write]: sends the header if it has not gone out, then the data. *)
Definition Write (b : Body) (w : ResponseWriter Body) : ResponseWriter Body :=
  let w' := WriteHeaderNow w in
  mkWriter (wStatus w') (wSent w') (wBody w' ++ [b])%list.
End Writer.
End writer.

(** What the client receives. *)
Record Response (Body : Type) : Type := mkResponse {
  respCode : Z;
  respBody : list Body
}.
Arguments mkResponse {Body} _ _.
Arguments respCode {Body} _.
Arguments respBody {Body} _.

(** A step of a handler either goes on with a value or panics. *)
Inductive Flow (A : Type) : Type :=
| Next (a : A)
| Panicked (msg : string).
Arguments Next {A} a.
Arguments Panicked {A} msg.

Section Boundary.
Context `{Collaborators}.

(** The values [main.go] stores in, or could find in, the context's
    [Keys] map of type [map[string]any]. *)
Inductive any : Type :=
| AnyOrderService (s : OrderService)
| AnyString (s : string).

(** The type assertion [v.( *OrderService)]. *)
Definition asOrderService (v : any) : option OrderService :=
  match v with
  | AnyOrderService s => Some s
  | AnyString _ => None
  end.

(** The JSON documents the handlers render. *)
Inductive Body : Type :=
| JSONOrders (orders : list (Order Item))
| JSONOrder (order : Order Item).

Record Context_ : Type := mkContext {
  cRequest : Request;
  cKeys : gmap string any;
  cWriter : ResponseWriter Body;
  cAborted : bool
}.

(** The calls that leave the process, in the order they are made. *)
Inductive Call : Type :=
| CallQueue
| CallInsertOrders (orders : list (Order Item))
| CallGetPendingOrders
| CallGetOrdersByStatus (s : Status)
| CallGetOrder (id : string)
| CallUpdateOrder (order : Order Item).

Definition isRepoCall (c : Call) : bool :=
  match c with
  | CallQueue => false
  | _ => true
  end.

(** The state one request runs in: its gin context, the backing store
    (with the queue), and the calls made so far. *)
Record HState : Type := mkHState {
  ctx : Context_;
  store : Store;
  calls : list Call
}.

Definition Handler (A : Type) : Type := HState -> Flow A * HState.

#[global] Instance Handler_ret : MRet Handler :=
  fun A a st => (Next a, st).

#[global] Instance Handler_bind : MBind Handler :=
  fun A B f m st =>
    match m st with
    | (Next a, st') => f a st'
    | (Panicked msg, st') => (Panicked msg, st')
    end.

Definition withCtx (f : Context_ -> Context_) : Handler unit :=
  fun st => (Next tt, mkHState (f (ctx st)) (store st) (calls st)).

Definition withWriter (f : ResponseWriter Body -> ResponseWriter Body)
  : Handler unit :=
  withCtx (fun c => mkContext (cRequest c) (cKeys c) (f (cWriter c)) (cAborted c)).

(** A call to a collaborator: it is recorded, runs against the store and
    hands back its result. *)
Definition call {A : Type} (what : Call) (op : Store -> A * Store) : Handler A :=
  fun st =>
    let (a, s') := op (store st) in
    (Next a, mkHState (ctx st) s' (calls st ++ [what])%list).

End Boundary.

Module gin.
Section Gin.
Context `{Collaborators}.

(** [c.Set(key, value)] *)
Definition Set_ (key : string) (value : any) : Handler unit :=
  withCtx (fun c =>
    mkContext (cRequest c) (<[key := value]> (cKeys c)) (cWriter c) (cAborted c)).

(** [c.MustGet(key)]: the value, or a panic when the key is not set. *)
Definition MustGet (key : string) : Handler any :=
  fun st =>
    match cKeys (ctx st) !! key with
    | Some v => (Next v, st)
    | None => (Panicked ("Key " +:+ key +:+ " does not exist"), st)
    end.

(** The first value of a key in the URL query, and the empty string
    when there is none. *)
Definition firstValue (q : gmap string (list string)) (key : string) : string :=
  match q !! key with
  | Some (v :: _) => v
  | _ => EmptyString
  end.

(** [c.Query(key)] *)
Definition Query (key : string) : Handler string :=
  fun st => (Next (firstValue (reqQuery (cRequest (ctx st))) key), st).

Fixpoint byName (key : string) (ps : list (string * string)) : string :=
  match ps with
  | [] => EmptyString
  | (k, v) :: ps' => if String.eqb k key then v else byName key ps'
  end.

(** [c.Param(key)]: the value of the first path parameter of that
    name, and the empty string when there is none. *)
Definition Param (key : string) : Handler string :=
  fun st => (Next (byName key (reqParams (cRequest (ctx st)))), st).

(** [c.Status(code)] *)
Definition Status (code : Z) : Handler unit :=
  withWriter (writer.WriteHeader code).

(** [c.Abort()]: no later handler of the chain runs. *)
Definition Abort : Handler unit :=
  withCtx (fun c => mkContext (cRequest c) (cKeys c) (cWriter c) true).

(** [c.AbortWithStatus(code)]:
    [c.Status(code); c.Writer.WriteHeaderNow(); c.Abort()]. *)
Definition AbortWithStatus (code : Z) : Handler unit :=
  Status code ;; withWriter writer.WriteHeaderNow ;; Abort.

(** [c.BindJSON(&obj)] is [c.MustBindWith(obj, binding.JSON)]: it decodes
    the body and, when that fails, aborts the request itself with
    [c.AbortWithError(http.StatusBadRequest, err)] (which is
    [c.AbortWithStatus(400)] plus a record of the error) before it
    returns the error to the caller. *)
Definition BindJSON : Handler (Result (Order Item)) :=
  fun st =>
    match unmarshalOrder (reqBody (cRequest (ctx st))) with
    | Ok order => (Next (Ok order), st)
    | Err e => (AbortWithStatus http.StatusBadRequest ;; mret (Err e)) st
    end.

Definition bodyAllowedForStatus (status : Z) : bool :=
  negb ((100 <=? status) && (status <=? 199))
  && negb (status =? 204) && negb (status =? 304).

(** [c.IndentedJSON(code, obj)]: [c.Render] sets the status and, where
    the status allows a body, writes the document. *)
Definition IndentedJSON (code : Z) (obj : Body) : Handler unit :=
  Status code ;;
  if bodyAllowedForStatus code
  then withWriter (writer.Write obj)
  else withWriter writer.WriteHeaderNow.

End Gin.
End gin.

(** ** The handlers of [main.go] *)

Section Handlers.
Context `{Collaborators}.

Import gin.

(** [OrderMiddleware]: puts the order service into the context, then
    runs the rest of the chain ([c.Next()]). *)
Definition OrderMiddleware (orderService : OrderService)
    (next : Handler unit) : Handler unit :=
  Set_ "orderService" (AnyOrderService orderService) ;;
  next.

(** [GET /order?status=0|1|2] *)
Definition listOrdersByStatus : Handler unit :=
  v ← MustGet "orderService";
  match asOrderService v with
  | None => AbortWithStatus http.StatusInternalServerError
  | Some client =>
      statusParam ← Query "status";
      if String.eqb statusParam EmptyString
      then AbortWithStatus http.StatusBadRequest
      else
        match strconv.Atoi statusParam with
        | None => AbortWithStatus http.StatusBadRequest
        | Some s =>
            if (s <? 0) || (2 <? s)
            then AbortWithStatus http.StatusBadRequest
            else
              r ← call (CallGetOrdersByStatus s)
                       (GetOrdersByStatus (repo client) s);
              match r with
              | Err _ => AbortWithStatus http.StatusInternalServerError
              | Ok orders => IndentedJSON http.StatusOK (JSONOrders orders)
              end
        end
  end.

(** [GET /order/fetch]: queue, then database, then the pending orders. *)
Definition fetchOrders : Handler unit :=
  v ← MustGet "orderService";
  match asOrderService v with
  | None => AbortWithStatus http.StatusInternalServerError
  | Some client =>
      r ← call CallQueue getOrdersFromQueue;
      match r with
      | Err _ => AbortWithStatus http.StatusInternalServerError
      | Ok orders =>
          r ← call (CallInsertOrders orders) (InsertOrders (repo client) orders);
          match r with
          | Err _ => AbortWithStatus http.StatusInternalServerError
          | Ok _ =>
              r ← call CallGetPendingOrders (GetPendingOrders (repo client));
              match r with
              | Err _ => AbortWithStatus http.StatusInternalServerError
              | Ok orders => IndentedJSON http.StatusOK (JSONOrders orders)
              end
          end
      end
  end.

(** [listOrders], the older handler whose route is commented out in
    [main]: any parsed status goes to the repository, and no status
    means the pending orders. *)
Definition listOrders : Handler unit :=
  v ← MustGet "orderService";
  match asOrderService v with
  | None => AbortWithStatus http.StatusInternalServerError
  | Some client =>
      statusParam ← Query "status";
      if negb (String.eqb statusParam EmptyString)
      then
        match strconv.Atoi statusParam with
        | None => AbortWithStatus http.StatusBadRequest
        | Some statusInt =>
            r ← call (CallGetOrdersByStatus statusInt)
                     (GetOrdersByStatus (repo client) statusInt);
            match r with
            | Err _ => AbortWithStatus http.StatusInternalServerError
            | Ok orders => IndentedJSON http.StatusOK (JSONOrders orders)
            end
        end
      else
        r ← call CallGetPendingOrders (GetPendingOrders (repo client));
        match r with
        | Err _ => AbortWithStatus http.StatusInternalServerError
        | Ok orders => IndentedJSON http.StatusOK (JSONOrders orders)
        end
  end.

(** [GET /order/:id] *)
Definition getOrder : Handler unit :=
  v ← MustGet "orderService";
  match asOrderService v with
  | None => AbortWithStatus http.StatusInternalServerError
  | Some client =>
      idParam ← Param "id";
      match strconv.Atoi idParam with
      | None => AbortWithStatus http.StatusBadRequest
      | Some id =>
          let sanitizedOrderId := strconv.FormatInt id in
          r ← call (CallGetOrder sanitizedOrderId)
                   (GetOrder (repo client) sanitizedOrderId);
          match r with
          | Err _ => AbortWithStatus http.StatusInternalServerError
          | Ok order => IndentedJSON http.StatusOK (JSONOrder order)
          end
      end
  end.

(** [PUT /order] *)
Definition updateOrder : Handler unit :=
  v ← MustGet "orderService";
  match asOrderService v with
  | None => AbortWithStatus http.StatusInternalServerError
  | Some client =>
      bound ← BindJSON;
      match bound with
      | Err _ => AbortWithStatus http.StatusInternalServerError
      | Ok order =>
          match strconv.Atoi (OrderID order) with
          | None => AbortWithStatus http.StatusBadRequest
          | Some id =>
              let sanitizedOrderId := strconv.FormatInt id in
              let sanitizedOrder :=
                {| OrderID := sanitizedOrderId;
                   CustomerID := CustomerID order;
                   Items := Items order;
                   Status_ := Status_ order |} in
              r ← call (CallUpdateOrder sanitizedOrder)
                       (UpdateOrder (repo client) sanitizedOrder);
              match r with
              | Err _ => AbortWithStatus http.StatusInternalServerError
              | Ok _ => Status http.StatusAccepted
              end
          end
      end
  end.

(** The order routes that [main] registers. *)
Inductive Route : Type :=
| GET_order_fetch
| GET_order
| GET_order_id
| PUT_order.

Definition routes (r : Route) : Handler unit :=
  match r with
  | GET_order_fetch => fetchOrders
  | GET_order => listOrdersByStatus
  | GET_order_id => getOrder
  | PUT_order => updateOrder
  end.

Definition freshContext (req : Request) : Context_ :=
  mkContext req ∅ writer.fresh false.

(** What the engine built by [gin.Default()] does around a chain: its
    recovery middleware answers a panic with status 500, and the header
    is sent once the chain is over if no handler sent it. *)
Definition runChain (chain : Handler unit) (st : HState) : HState :=
  let (flow, st1) := chain st in
  let st2 :=
    match flow with
    | Next _ => st1
    | Panicked _ => snd (AbortWithStatus http.StatusInternalServerError st1)
    end in
  snd (withWriter writer.WriteHeaderNow st2).

(** The response on the wire: the status that went out with the header
    and the body. *)
Definition response (st : HState) : Response Body :=
  let w := cWriter (ctx st) in
  mkResponse (default (wStatus w) (wSent w)) (wBody w).

(** One request through the router of [main]: the middleware, then the
    handler of the route. *)
Definition serve (orderService : OrderService) (r : Route)
    (req : Request) (s : Store) : HState :=
  runChain (OrderMiddleware orderService (routes r))
           (mkHState (freshContext req) s []).

(** The [status] query parameter as the list handler reads it. *)
Definition statusParam (req : Request) : string :=
  firstValue (reqQuery req) "status".

(** The [id] path parameter as the get handler reads it. *)
Definition idParam (req : Request) : string :=
  byName "id" (reqParams req).

(** The order that [updateOrder] builds from the decoded one. *)
Definition sanitized (order : Order Item) (id : Z) : Order Item :=
  {| OrderID := strconv.FormatInt id;
     CustomerID := CustomerID order;
     Items := Items order;
     Status_ := Status_ order |}.

(** The state in which the handler of a route starts: the middleware
    has put the service into a fresh context. *)
Definition entered (orderService : OrderService) (req : Request)
    (s : Store) : HState :=
  mkHState
    (mkContext req (<["orderService" := AnyOrderService orderService]> ∅)
               writer.fresh false)
    s [].

End Handlers.

(** ** Start-up: environment and repository factory *)

(** Valid database API types *)
Definition AZURE_COSMOS_DB_SQL_API : string := "cosmosdbsql".

(** What start-up does that can be observed from outside: the environment
    variables it reads and the backends it constructs, with the arguments
    of each constructor. *)
Inductive StartupEvent : Type :=
| ReadEnv (name : string)
| ConstructCosmosManagedIdentity (uri db container : string) (pk : PartitionKey)
| ConstructCosmosSharedKey (uri db container password : string) (pk : PartitionKey)
| ConstructMongo (uri db collection username password : string).

Definition isConstruct (e : StartupEvent) : bool :=
  match e with
  | ReadEnv _ => false
  | _ => true
  end.

Definition isCosmos (e : StartupEvent) : bool :=
  match e with
  | ConstructCosmosManagedIdentity _ _ _ _ => true
  | ConstructCosmosSharedKey _ _ _ _ _ => true
  | _ => false
  end.

Definition isMongo (e : StartupEvent) : bool :=
  match e with
  | ConstructMongo _ _ _ _ _ => true
  | _ => false
  end.

(** The constructor calls of a log. *)
Definition constructions (log : list StartupEvent) : list StartupEvent :=
  List.filter isConstruct log.

(** The names of the environment variables a log reads. *)
Definition readsOf (log : list StartupEvent) : list string :=
  flat_map (fun e => match e with ReadEnv n => [n] | _ => [] end) log.

(** A start-up computation either goes on with a value or has ended the
    process with [os.Exit(code)]. *)
Inductive Outcome (A : Type) : Type :=
| Running (a : A)
| Exited (code : Z).
Arguments Running {A} a.
Arguments Exited {A} code.

(** Start-up code reads the process environment and leaves a log. *)
Definition Startup (A : Type) : Type :=
  gmap string string -> list StartupEvent -> Outcome A * list StartupEvent.

#[global] Instance Startup_ret : MRet Startup :=
  fun A a env log => (Running a, log).

#[global] Instance Startup_bind : MBind Startup :=
  fun A B f m env log =>
    match m env log with
    | (Running a, log') => f a env log'
    | (Exited code, log') => (Exited code, log')
    end.

Module os.

(** The value of a variable in an environment: empty when unset. *)
Definition valueOf (env : gmap string string) (name : string) : string :=
  default EmptyString (env !! name).

(** [os.Getenv(name)] *)
Definition Getenv (name : string) : Startup string :=
  fun env log => (Running (valueOf env name), (log ++ [ReadEnv name])%list).

(** [os.Exit(code)] *)
Definition Exit {A : Type} (code : Z) : Startup A :=
  fun env log => (Exited code, log).

End os.

Section Factory.
Context `{Collaborators}.

(** A constructor call: recorded with its arguments. *)
Definition construct {A : Type} (what : StartupEvent) (result : A) : Startup A :=
  fun env log => (Running result, (log ++ [what])%list).

(** The loop of [getEnvVar] over the fallback names: each one overwrites
    [value], and the loop breaks at the first one that is empty. *)
Fixpoint fallbackLoop (fallbackVarNames : list string) (value : string)
  : Startup string :=
  match fallbackVarNames with
  | [] => mret value
  | fallbackVarName :: rest =>
      value ← os.Getenv fallbackVarName;
      if String.eqb value EmptyString
      then mret value
      else fallbackLoop rest value
  end.

(** Gets an environment variable or exits if it is not set *)
Definition getEnvVar (varName : string) (fallbackVarNames : list string)
  : Startup string :=
  value ← os.Getenv varName;
  if String.eqb value EmptyString
  then
    value ← fallbackLoop fallbackVarNames value;
    if String.eqb value EmptyString
    then os.Exit 1
    else mret value
  else mret value.

(** The tail of each branch of [initDatabase]: an error of the
    constructor is returned, a repository is wrapped in the service. *)
Definition wrap (r : Result (OrderRepo Item Store)) : Result OrderService :=
  match r with
  | Err e => Err e
  | Ok repo => Ok (NewOrderService repo)
  end.

(** Initializes the database based on the API type *)
Definition initDatabase (apiType : string) : Startup (Result OrderService) :=
  dbURI ← getEnvVar "AZURE_COSMOS_RESOURCEENDPOINT" ["ORDER_DB_URI"];
  dbName ← getEnvVar "ORDER_DB_NAME" [];
  if String.eqb apiType AZURE_COSMOS_DB_SQL_API
  then
    containerName ← getEnvVar "ORDER_DB_CONTAINER_NAME" [];
    dbPartitionKey ← getEnvVar "ORDER_DB_PARTITION_KEY" [];
    dbPartitionValue ← getEnvVar "ORDER_DB_PARTITION_VALUE" [];
    useWorkloadIdentityAuth ← os.Getenv "USE_WORKLOAD_IDENTITY_AUTH";
    let useWorkloadIdentityAuth :=
      if String.eqb useWorkloadIdentityAuth EmptyString
      then "false" else useWorkloadIdentityAuth in
    if String.eqb useWorkloadIdentityAuth "true"
    then
      let pk := mkPartitionKey dbPartitionKey dbPartitionValue in
      cosmosRepo ← construct
        (ConstructCosmosManagedIdentity dbURI dbName containerName pk)
        (NewCosmosDBOrderRepoWithManagedIdentity dbURI dbName containerName pk);
      mret (wrap cosmosRepo)
    else
      dbPassword ← os.Getenv "ORDER_DB_PASSWORD";
      let pk := mkPartitionKey dbPartitionKey dbPartitionValue in
      cosmosRepo ← construct
        (ConstructCosmosSharedKey dbURI dbName containerName dbPassword pk)
        (NewCosmosDBOrderRepo dbURI dbName containerName dbPassword pk);
      mret (wrap cosmosRepo)
  else
    collectionName ← getEnvVar "ORDER_DB_COLLECTION_NAME" [];
    dbUsername ← os.Getenv "ORDER_DB_USERNAME";
    dbPassword ← os.Getenv "ORDER_DB_PASSWORD";
    mongoRepo ← construct
      (ConstructMongo dbURI dbName collectionName dbUsername dbPassword)
      (NewMongoDBOrderRepo dbURI dbName collectionName dbUsername dbPassword);
    mret (wrap mongoRepo).

(** The constructor call that an event of the log stands for. *)
Definition constructed (e : StartupEvent) : option (Result (OrderRepo Item Store)) :=
  match e with
  | ReadEnv _ => None
  | ConstructCosmosManagedIdentity uri db container pk =>
      Some (NewCosmosDBOrderRepoWithManagedIdentity uri db container pk)
  | ConstructCosmosSharedKey uri db container password pk =>
      Some (NewCosmosDBOrderRepo uri db container password pk)
  | ConstructMongo uri db collection username password =>
      Some (NewMongoDBOrderRepo uri db collection username password)
  end.

(** ** The specification's list of required settings *)

(** A setting is a variable name with its fallback names. *)
Definition Setting : Type := (string * list string)%type.

(** Store URI and database name; for the partitioned API also container
    name, partition-key name and partition-key value; otherwise also the
    collection name. *)
Definition requiredSettings (apiType : string) : list Setting :=
  ([("AZURE_COSMOS_RESOURCEENDPOINT", ["ORDER_DB_URI"]); ("ORDER_DB_NAME", [])]
  ++ if String.eqb apiType AZURE_COSMOS_DB_SQL_API
      then [("ORDER_DB_CONTAINER_NAME", []);
            ("ORDER_DB_PARTITION_KEY", []);
            ("ORDER_DB_PARTITION_VALUE", [])]
     else [("ORDER_DB_COLLECTION_NAME", [])])%list.

(** Absent: empty under its own name and under every fallback name. *)
Definition absent (env : gmap string string) (k : Setting) : Prop :=
  os.valueOf env (fst k) = EmptyString
  /\ Forall (fun n => os.valueOf env n = EmptyString) (snd k).

(** The value of a setting: its own variable, and the fallback names
    in order when that one is empty. *)
Fixpoint firstSet (env : gmap string string) (names : list string) : string :=
  match names with
  | [] => EmptyString
  | n :: rest =>
      if String.eqb (os.valueOf env n) EmptyString
      then firstSet env rest
      else os.valueOf env n
  end.

Definition settingValue (env : gmap string string) (k : Setting) : string :=
  firstSet env (fst k :: snd k).

End Factory.

(** ** The start of [main] *)

Section Main.
Context `{Collaborators}.

(** [main] up to the point where the router is built: the selector is read
    from ORDER_DB_API, the database is initialized, and an error of the
    initialization ends the process with [os.Exit(1)].  The value is the
    order service that [OrderMiddleware] is given. *)
Definition main : Startup OrderService :=
  apiType ← os.Getenv "ORDER_DB_API";
  r ← initDatabase apiType;
  match r with
  | Err _ => os.Exit 1
  | Ok orderService => mret orderService
  end.

(** The calls that change the store's orders. *)
Definition isWrite (c : Call) : bool :=
  match c with
  | CallInsertOrders _ => true
  | CallUpdateOrder _ => true
  | _ => false
  end.

(** [listOrders] behind the middleware, as it would run if its route
    were registered. *)
Definition serveListOrders (orderService : OrderService) (req : Request)
    (s : Store) : HState :=
  runChain (OrderMiddleware orderService listOrders)
           (mkHState (freshContext req) s []).

(** The request as the router hands it to its first handler. *)
Definition arrived (keys : gmap string any) (req : Request) (s : Store) : HState :=
  mkHState (mkContext req keys writer.fresh false) s [].

End Main.

(** The URI argument of a constructor call. *)
Definition uriOf (e : StartupEvent) : string :=
  match e with
  | ReadEnv _ => EmptyString
  | ConstructCosmosManagedIdentity uri _ _ _ => uri
  | ConstructCosmosSharedKey uri _ _ _ _ => uri
  | ConstructMongo uri _ _ _ _ => uri
  end.

(** ** A concrete set of collaborators: an in-memory backend

    Used to run the handlers and the factory on concrete requests. *)

Module Demo.

Record MemStore : Type := mkMemStore {
  queue : list (Order string);
  table : list (Order string)
}.

Definition hasId (id : string) (o : Order string) : bool :=
  String.eqb (OrderID o) id.

Definition insertNew (t : list (Order string)) (o : Order string)
  : list (Order string) :=
  if existsb (hasId (OrderID o)) t then t else (t ++ [o])%list.

Definition memRepo : OrderRepo string MemStore :=
  {| InsertOrders := fun orders s =>
       (Ok tt, mkMemStore (queue s) (fold_left insertNew orders (table s)));
     GetPendingOrders := fun s =>
       (Ok (List.filter (fun o => Status_ o =? Pending) (table s)), s);
     GetOrdersByStatus := fun st s =>
       (Ok (List.filter (fun o => Status_ o =? st) (table s)), s);
     GetOrder := fun id s =>
       (match List.find (hasId id) (table s) with
        | Some o => Ok o
        | None => Err "not found"
        end, s);
     UpdateOrder := fun o s =>
       if existsb (hasId (OrderID o)) (table s)
       then (Ok tt,
             mkMemStore (queue s)
               (List.map (fun x => if hasId (OrderID o) x then o else x) (table s)))
       else (Err "not found", s) |}.

(** The fields of a line, separated by a bar. *)
Fixpoint fields (s : string) : list string :=
  match s with
  | EmptyString => [EmptyString]
  | String c r =>
      if Ascii.eqb c "|"
      then EmptyString :: fields r
      else match fields r with
           | f :: fs => String c f :: fs
           | [] => [String c EmptyString]
           end
  end.

(** The status field of a body: one decimal digit. *)
Definition decodeStatus (s : string) : option Status :=
  if String.eqb s "0" then Some 0
  else if String.eqb s "1" then Some 1
  else if String.eqb s "2" then Some 2
  else if String.eqb s "5" then Some 5
  else None.

(** A stand-in for the JSON decoder: a body is [id|customer|status]. *)
Definition decode (body : string) : Result (Order string) :=
  match fields body with
  | [id; customer; status] =>
      match decodeStatus status with
      | Some st => Ok (mkOrder id customer [] st)
      | None => Err "cannot unmarshal status"
      end
  | _ => Err "unexpected end of input"
  end.

Definition collaborators : Collaborators :=
  {| Item := string;
     Store := MemStore;
     getOrdersFromQueue := fun s => (Ok (queue s), mkMemStore [] (table s));
     unmarshalOrder := decode;
     NewCosmosDBOrderRepoWithManagedIdentity := fun _ _ _ _ => Ok memRepo;
     NewCosmosDBOrderRepo := fun _ _ _ password _ =>
       if String.eqb password EmptyString
       then Err "unauthorized" else Ok memRepo;
     NewMongoDBOrderRepo := fun _ _ _ _ _ => Ok memRepo |}.

Definition service : @OrderService collaborators :=
  @NewOrderService collaborators memRepo.

Definition jsonOrders (l : list (Order string)) : @Body collaborators :=
  @JSONOrders collaborators l.

Definition jsonOrder (o : Order string) : @Body collaborators :=
  @JSONOrder collaborators o.

Definition callGetOrder (id : string) : @Call collaborators :=
  @CallGetOrder collaborators id.

Definition callUpdateOrder (o : Order string) : @Call collaborators :=
  @CallUpdateOrder collaborators o.

Definition request (query : gmap string (list string))
    (params : list (string * string)) (body : string) : Request :=
  mkRequest query params body.

(** GET /order/-5 *)
Definition getMinusFive : Request := request ∅ [("id", "-5")] "".

Definition order7 : Order string := mkOrder "7" "alice" [] Pending.

Definition seeded : MemStore := mkMemStore [] [order7].

(** A store that holds an order under a negative identifier. *)
Definition returned : Order string := mkOrder "-5" "bob" [] Complete.

Definition withNegative : MemStore := mkMemStore [] [order7; returned].

(** The partitioned configuration with workload identity switched on
    and no password at all. *)
Definition identityEnv : gmap string string :=
  <["USE_WORKLOAD_IDENTITY_AUTH" := "true"]>
  (<["AZURE_COSMOS_RESOURCEENDPOINT" := "https://db.example"]>
  (<["ORDER_DB_NAME" := "orders"]>
  (<["ORDER_DB_CONTAINER_NAME" := "c"]>
  (<["ORDER_DB_PARTITION_KEY" := "storeId"]>
  (<["ORDER_DB_PARTITION_VALUE" := "pets"]> ∅))))).

(** The partitioned configuration without its partition-key value. *)
Definition noPartitionValueEnv : gmap string string :=
  <["ORDER_DB_URI" := "https://db.example"]>
  (<["ORDER_DB_NAME" := "orders"]>
  (<["ORDER_DB_CONTAINER_NAME" := "c"]>
  (<["ORDER_DB_PARTITION_KEY" := "storeId"]> ∅))).

(** A full configuration of the partitioned backend. *)
Definition cosmosEnv : gmap string string :=
  <["ORDER_DB_URI" := "https://db.example"]>
  (<["ORDER_DB_NAME" := "orders"]>
  (<["ORDER_DB_CONTAINER_NAME" := "c"]>
  (<["ORDER_DB_PARTITION_KEY" := "storeId"]>
  (<["ORDER_DB_PARTITION_VALUE" := "pets"]>
  (<["ORDER_DB_PASSWORD" := "secret"]> ∅))))).

(** A full configuration of the document-store backend. *)
Definition mongoEnv : gmap string string :=
  <["ORDER_DB_URI" := "mongodb://db.example"]>
  (<["ORDER_DB_NAME" := "orders"]>
  (<["ORDER_DB_COLLECTION_NAME" := "orders"]> ∅)).

(** A backend whose every operation fails. *)
Definition brokenRepo : OrderRepo string MemStore :=
  {| InsertOrders := fun _ s => (Err "connection refused", s);
     GetPendingOrders := fun s => (Err "connection refused", s);
     GetOrdersByStatus := fun _ s => (Err "connection refused", s);
     GetOrder := fun _ s => (Err "connection refused", s);
     UpdateOrder := fun _ s => (Err "connection refused", s) |}.

Definition brokenService : @OrderService collaborators :=
  @NewOrderService collaborators brokenRepo.

Definition callGetOrdersByStatus (st : Status) : @Call collaborators :=
  @CallGetOrdersByStatus collaborators st.

Definition callGetPendingOrders : @Call collaborators :=
  @CallGetPendingOrders collaborators.

Definition anyString (x : string) : @any collaborators :=
  @AnyString collaborators x.

(** The partitioned configuration with the shared key left out: the
    stand-in constructor refuses an empty password. *)
Definition noPasswordEnv : gmap string string :=
  <["ORDER_DB_API" := "cosmosdbsql"]>
  (<["ORDER_DB_URI" := "https://db.example"]>
  (<["ORDER_DB_NAME" := "orders"]>
  (<["ORDER_DB_CONTAINER_NAME" := "c"]>
  (<["ORDER_DB_PARTITION_KEY" := "storeId"]>
  (<["ORDER_DB_PARTITION_VALUE" := "pets"]> ∅))))).

(** Both names of the store URI set. *)
Definition bothUrisEnv : gmap string string :=
  <["AZURE_COSMOS_RESOURCEENDPOINT" := "https://cosmos.example"]> mongoEnv.

(** Two fallback names, the first set and the second not. *)
Definition firstFallbackEnv : gmap string string :=
  <["FIRST" := "one"]> ∅.

(** Two fallback names, both set. *)
Definition bothFallbacksEnv : gmap string string :=
  <["FIRST" := "one"]> (<["SECOND" := "two"]> ∅).

End Demo.

(** * Properties *)

(** ** Smoke tests of the definitions *)

Example Atoi_examples :
  strconv.Atoi "007" = Some 7 /\ strconv.Atoi "+5" = Some 5
  /\ strconv.Atoi "-5" = Some (-5) /\ strconv.Atoi "" = None
  /\ strconv.Atoi "-" = None /\ strconv.Atoi "1x" = None
  /\ strconv.Atoi "9223372036854775807" = Some 9223372036854775807
  /\ strconv.Atoi "9223372036854775808" = None
  /\ strconv.Atoi "-9223372036854775808" = Some (-9223372036854775808).
Proof. vm_compute. repeat match goal with |- _ /\ _ => split end; reflexivity. Qed.

Example FormatInt_examples :
  strconv.FormatInt 7 = "7" /\ strconv.FormatInt 0 = "0"
  /\ strconv.FormatInt (-5) = "-5"
  /\ strconv.FormatInt 9223372036854775807 = "9223372036854775807"
  /\ strconv.FormatInt (-9223372036854775808) = "-9223372036854775808".
Proof. vm_compute. repeat match goal with |- _ /\ _ => split end; reflexivity. Qed.

Example serve_list_demo :
  response (serve Demo.service GET_order
              (Demo.request {[ "status" := ["0"] ]} [] "") Demo.seeded)
  = mkResponse 200 [Demo.jsonOrders [Demo.order7]].
Proof. vm_compute. reflexivity. Qed.

(** ** strconv: formatting and parsing agree *)

Section StrconvFacts.
Import strconv.

Lemma digit_cases (d : Z) :
  0 <= d <= 9 ->
  d = 0 \/ d = 1 \/ d = 2 \/ d = 3 \/ d = 4 \/ d = 5 \/ d = 6 \/ d = 7
  \/ d = 8 \/ d = 9.
Proof. lia. Qed.

Ltac each_digit d Hd :=
  destruct (digit_cases d Hd) as
    [-> | [-> | [-> | [-> | [-> | [-> | [-> | [-> | [-> | ->]]]]]]]]].

Lemma digitChar_value (d : Z) :
  0 <= d <= 9 -> (Z.of_N (N_of_ascii (digitChar d)) - 48) mod 256 = d.
Proof. intros Hd. each_digit d Hd; reflexivity. Qed.

Lemma digitChar_isDigit (d : Z) :
  0 <= d <= 9 -> isDigit (digitChar d) = true.
Proof. intros Hd. each_digit d Hd; reflexivity. Qed.

Lemma digitChar_zero (d : Z) :
  0 <= d <= 9 -> Ascii.eqb (digitChar d) "0" = (d =? 0).
Proof. intros Hd. each_digit d Hd; reflexivity. Qed.

Lemma isDigit_not_sign (c : ascii) :
  isDigit c = true -> Ascii.eqb c "-" = false /\ Ascii.eqb c "+" = false.
Proof.
  intros Hc. split.
  - destruct (Ascii.eqb_spec c "-") as [-> | _]; [discriminate Hc | reflexivity].
  - destruct (Ascii.eqb_spec c "+") as [-> | _]; [discriminate Hc | reflexivity].
Qed.

Lemma parseDigits_digit (d : Z) (s : string) (n : Z) :
  0 <= d <= 9 ->
  parseDigits (String (digitChar d) s) n = parseDigits s (n * 10 + d).
Proof.
  intros Hd. cbn [parseDigits]. rewrite (digitChar_value d Hd).
  destruct (Z.ltb_spec 9 d); [lia | reflexivity].
Qed.

(** One step of the formatting loop, as an equation. *)
Lemma formatBits_step (fuel : nat) (u : Z) (a : string) :
  formatBits (S fuel) u a =
  if 10 <=? u
  then formatBits fuel (u / 10) (String (digitChar (u - u / 10 * 10)) a)
  else String (digitChar u) a.
Proof. reflexivity. Qed.

(** Parsing the digits that the loop wrote in front of [a] shifts the
    accumulator by that many places and adds the number. *)
Lemma parseDigits_formatBits (fuel : nat) :
  forall (u : Z) (a : string),
    0 <= u < 10 ^ Z.of_nat fuel ->
    exists k, 0 <= k /\
      forall n, parseDigits (formatBits fuel u a) n
                = parseDigits a (n * 10 ^ k + u).
Proof.
  induction fuel as [| fuel IH]; intros u a Hu.
  - exists 0. split; [lia |]. intros n. cbn [formatBits].
    change (10 ^ Z.of_nat 0) with 1 in Hu. f_equal. lia.
  - rewrite formatBits_step.
    rewrite Nat2Z.inj_succ, Z.pow_succ_r in Hu by lia.
    destruct (Z.leb_spec 10 u) as [Hge | Hlt].
    + assert (Hq : 0 <= u / 10 < 10 ^ Z.of_nat fuel).
      { split; [apply Z.div_pos; lia | apply Z.div_lt_upper_bound; lia]. }
      destruct (IH (u / 10) (String (digitChar (u - u / 10 * 10)) a) Hq)
        as (k & Hk & Hparse).
      exists (k + 1). split; [lia |]. intros n.
      rewrite Hparse, parseDigits_digit.
      * f_equal. rewrite Z.pow_add_r by lia. lia.
      * pose proof (Z.mod_pos_bound u 10 ltac:(lia)).
        pose proof (Z.div_mod u 10 ltac:(lia)). lia.
    + exists 1. split; [lia |]. intros n.
      rewrite parseDigits_digit by lia. f_equal.
Qed.

Lemma last_digit (u : Z) (a : string) :
  0 <= u < 10 -> allDigits a = true ->
  exists c r,
    String (digitChar u) a = String c r
    /\ isDigit c = true /\ allDigits r = true
    /\ (u = 0 -> c = "0"%char /\ r = a)
    /\ (0 < u -> Ascii.eqb c "0" = false).
Proof.
  intros Hu Ha. exists (digitChar u), a.
  split; [reflexivity |].
  split; [apply digitChar_isDigit; lia |].
  split; [exact Ha |].
  split.
  - intros ->. split; reflexivity.
  - intros Hpos. rewrite digitChar_zero by lia.
    destruct (Z.eqb_spec u 0); [lia | reflexivity].
Qed.

(** The text the loop writes: a digit in front, digits after it, and a
    zero in front only for the number zero, alone. *)
Lemma formatBits_shape (fuel : nat) :
  forall (u : Z) (a : string),
    0 <= u < 10 ^ Z.of_nat (S fuel) ->
    allDigits a = true ->
    exists c r,
      formatBits (S fuel) u a = String c r
      /\ isDigit c = true /\ allDigits r = true
      /\ (u = 0 -> c = "0"%char /\ r = a)
      /\ (0 < u -> Ascii.eqb c "0" = false).
Proof.
  induction fuel as [| fuel IH]; intros u a Hu Ha;
    rewrite formatBits_step;
    rewrite Nat2Z.inj_succ, Z.pow_succ_r in Hu by lia;
    destruct (Z.leb_spec 10 u) as [Hge | Hlt].
  - change (10 ^ Z.of_nat 0) with 1 in Hu. lia.
  - apply last_digit; [lia | exact Ha].
  - assert (Hd : 0 <= u - u / 10 * 10 <= 9).
    { pose proof (Z.mod_pos_bound u 10 ltac:(lia)).
      pose proof (Z.div_mod u 10 ltac:(lia)). lia. }
    assert (Hq : 0 < u / 10 < 10 ^ Z.of_nat (S fuel)).
    { split; [apply Z.div_str_pos; lia | apply Z.div_lt_upper_bound; lia]. }
    destruct (IH (u / 10) (String (digitChar (u - u / 10 * 10)) a))
      as (c & r & Heq & Hc & Hr & _ & Hnz).
    { lia. }
    { cbn [allDigits]. rewrite digitChar_isDigit by exact Hd. exact Ha. }
    exists c, r. split; [exact Heq |]. split; [exact Hc |].
    split; [exact Hr |]. split; [lia |].
    intros _. apply Hnz. lia.
  - apply last_digit; [lia | exact Ha].
Qed.

Lemma maxInt_value : maxInt = 9223372036854775807.
Proof. reflexivity. Qed.

Lemma minInt_value : minInt = -9223372036854775808.
Proof. reflexivity. Qed.

Lemma buffer_bound : 10 ^ Z.of_nat (S 19) = 100000000000000000000.
Proof. reflexivity. Qed.

(** The magnitude of an in-range integer, formatted and parsed again. *)
Lemma parse_magnitude (u : Z) :
  0 <= u <= - minInt ->
  exists c r,
    formatBits bufDigits u EmptyString = String c r
    /\ isDigit c = true /\ allDigits r = true
    /\ (u = 0 -> c = "0"%char /\ r = EmptyString)
    /\ (0 < u -> Ascii.eqb c "0" = false)
    /\ parseDigits (String c r) 0 = Some u.
Proof.
  intros Hu. rewrite minInt_value in Hu.
  change bufDigits with (S 19).
  destruct (formatBits_shape 19 u EmptyString) as (c & r & Heq & Hc & Hr & Hz & Hnz).
  { rewrite buffer_bound. lia. }
  { reflexivity. }
  exists c, r. rewrite Heq.
  split; [reflexivity |]. split; [exact Hc |]. split; [exact Hr |].
  split; [exact Hz |]. split; [exact Hnz |].
  destruct (parseDigits_formatBits (S 19) u EmptyString) as (k & _ & Hparse).
  { rewrite buffer_bound. lia. }
  rewrite <- Heq, Hparse. cbn [parseDigits]. f_equal.
Qed.

(** [Atoi] undoes [FormatInt] on every value of the [int] type. *)
Lemma Atoi_FormatInt (n : Z) :
  minInt <= n <= maxInt -> Atoi (FormatInt n) = Some n.
Proof.
  intros Hn. pose proof minInt_value as Hmin. pose proof maxInt_value as Hmax.
  unfold FormatInt. destruct (Z.ltb_spec n 0) as [Hneg | Hpos].
  - destruct (parse_magnitude (- n)) as (c & r & Heq & _ & _ & _ & _ & Hparse).
    { lia. }
    rewrite Heq. unfold Atoi.
    change (Ascii.eqb "-" "-") with true. cbn [orb]. cbv iota beta zeta.
    rewrite Hparse. rewrite Z.opp_involutive.
    destruct (Z.leb_spec minInt n); [| lia].
    destruct (Z.leb_spec n maxInt); [| lia]. reflexivity.
  - destruct (parse_magnitude n) as (c & r & Heq & Hc & _ & _ & _ & Hparse).
    { lia. }
    rewrite Heq. unfold Atoi.
    destruct (isDigit_not_sign c Hc) as [-> ->]. cbn [orb]. cbv iota beta zeta.
    rewrite Hparse.
    destruct (Z.leb_spec minInt n); [| lia].
    destruct (Z.leb_spec n maxInt); [| lia]. reflexivity.
Qed.

(** What [Atoi] accepts is a value of the [int] type. *)
Lemma Atoi_in_range (s : string) (n : Z) :
  Atoi s = Some n -> minInt <= n <= maxInt.
Proof.
  unfold Atoi. destruct s as [| s0 rest]; [discriminate |].
  destruct (if Ascii.eqb s0 "-" || Ascii.eqb s0 "+" then rest else String s0 rest)
    as [| c r]; [discriminate |].
  destruct (parseDigits (String c r) 0) as [u |]; [| discriminate].
  cbv zeta.
  destruct (Z.leb_spec minInt (if Ascii.eqb s0 "-" then - u else u));
    [| discriminate].
  destruct (Z.leb_spec (if Ascii.eqb s0 "-" then - u else u) maxInt);
    [| discriminate].
  cbn [andb]. intros [= <-]. lia.
Qed.

(** A digit string with no zero in front of another digit. *)
Lemma digits_normalized (c : ascii) (r : string) :
  isDigit c = true -> allDigits r = true ->
  (Ascii.eqb c "0" = true -> r = EmptyString) ->
  normalized (String c r) = true.
Proof.
  intros Hc Hr Hz. unfold normalized, hasLeadingZero, hasSign, dropSign.
  destruct (isDigit_not_sign c Hc) as [-> ->]. cbn [orb negb andb].
  cbn [allDigits]. rewrite Hc, Hr. cbn [andb String.eqb].
  destruct r as [| c' r']; [reflexivity |].
  destruct (Ascii.eqb c "0"); [| reflexivity].
  discriminate (Hz eq_refl).
Qed.

(** A non-negative identifier is formatted in the normal form. *)
Lemma FormatInt_normalized (n : Z) :
  0 <= n <= maxInt -> normalized (FormatInt n) = true.
Proof.
  intros Hn. pose proof minInt_value. pose proof maxInt_value.
  unfold FormatInt. destruct (Z.ltb_spec n 0); [lia |].
  destruct (parse_magnitude n) as (c & r & Heq & Hc & Hr & Hz & Hnz & _).
  { lia. }
  rewrite Heq. apply digits_normalized; auto.
  intros Hc0. destruct (Z.eq_dec n 0) as [Hn0 | Hn0].
  - apply Hz, Hn0.
  - rewrite Hnz in Hc0 by lia. discriminate.
Qed.

(** A negative identifier is formatted with a minus sign in front. *)
Lemma FormatInt_negative (n : Z) :
  n < 0 -> exists r, FormatInt n = String "-" r.
Proof.
  intros Hn. unfold FormatInt. destruct (Z.ltb_spec n 0); [| lia].
  eexists. reflexivity.
Qed.

(** Every identifier is formatted canonically. *)
Lemma FormatInt_canonical (n : Z) :
  minInt <= n <= maxInt -> canonical (FormatInt n) = true.
Proof.
  intros Hn. pose proof minInt_value. pose proof maxInt_value.
  destruct (Z.ltb_spec n 0) as [Hneg | Hpos].
  - unfold FormatInt. destruct (Z.ltb_spec n 0); [| lia].
    destruct (parse_magnitude (- n)) as (c & r & Heq & Hc & Hr & _ & Hnz & _).
    { lia. }
    rewrite Heq. unfold canonical. change (Ascii.eqb "-" "-") with true.
    cbv iota. rewrite digits_normalized; auto.
    + cbn [andb String.eqb]. rewrite Hnz by lia. reflexivity.
    + intros Hc0. rewrite Hnz in Hc0 by lia. discriminate.
  - pose proof (FormatInt_normalized n ltac:(lia)) as Hnorm.
    unfold FormatInt in *. destruct (Z.ltb_spec n 0); [lia |].
    destruct (parse_magnitude n) as (c & r & Heq & Hc & _).
    { lia. }
    rewrite Heq in *. unfold canonical.
    destruct (isDigit_not_sign c Hc) as [-> _]. exact Hnorm.
Qed.

End StrconvFacts.

(** ** The request pipeline, step by step *)

Section HandlerFacts.
Context `{Collaborators}.
Import gin.

Lemma serve_entered (svc : OrderService) (r : Route) (req : Request) (s : Store) :
  serve svc r req s = runChain (routes r) (entered svc req s).
Proof. reflexivity. Qed.

(** The handler finds the service that the middleware stored. *)
Lemma bind_MustGet_entered {A : Type} (F : any -> Handler A)
    (svc : OrderService) (req : Request) (s : Store) :
  (MustGet "orderService" ≫= F) (entered svc req s)
  = F (AnyOrderService svc) (entered svc req s).
Proof.
  unfold mbind, Handler_bind, MustGet, entered. cbn [ctx cKeys].
  rewrite lookup_insert_eq. reflexivity.
Qed.

Lemma bind_Query {A : Type} (key : string) (F : string -> Handler A) (st : HState) :
  (Query key ≫= F) st = F (firstValue (reqQuery (cRequest (ctx st))) key) st.
Proof. reflexivity. Qed.

Lemma bind_Param {A : Type} (key : string) (F : string -> Handler A) (st : HState) :
  (Param key ≫= F) st = F (byName key (reqParams (cRequest (ctx st)))) st.
Proof. reflexivity. Qed.

Lemma bind_call {A B : Type} (what : Call) (op : Store -> A * Store)
    (F : A -> Handler B) (st : HState) :
  (call what op ≫= F) st
  = F (op (store st)).1
      (mkHState (ctx st) (op (store st)).2 (calls st ++ [what])%list).
Proof.
  unfold mbind, Handler_bind, call. destruct (op (store st)); reflexivity.
Qed.

Lemma bind_BindJSON_Ok {A : Type} (F : Result (Order Item) -> Handler A)
    (st : HState) (order : Order Item) :
  unmarshalOrder (reqBody (cRequest (ctx st))) = Ok order ->
  (BindJSON ≫= F) st = F (Ok order) st.
Proof.
  intros Hbody. unfold mbind, Handler_bind, BindJSON. rewrite Hbody. reflexivity.
Qed.

Lemma bind_BindJSON_Err {A : Type} (F : Result (Order Item) -> Handler A)
    (st : HState) (e : error) :
  unmarshalOrder (reqBody (cRequest (ctx st))) = Err e ->
  (BindJSON ≫= F) st
  = F (Err e) (AbortWithStatus http.StatusBadRequest st).2.
Proof.
  intros Hbody. unfold mbind at 1, Handler_bind at 1, BindJSON.
  rewrite Hbody. reflexivity.
Qed.

(** *** What reaches the wire *)

(** A chain that ends in [AbortWithStatus] before anything was sent. *)
Lemma runChain_abort (chain : Handler unit) (st0 st : HState) (code : Z) :
  chain st0 = AbortWithStatus code st ->
  wSent (cWriter (ctx st)) = None -> 0 < code ->
  response (runChain chain st0) = mkResponse code (wBody (cWriter (ctx st)))
  /\ store (runChain chain st0) = store st
  /\ calls (runChain chain st0) = calls st.
Proof.
  intros Hrun Hsent Hcode. unfold runChain. rewrite Hrun.
  unfold AbortWithStatus, Status, Abort, withWriter, withCtx, mbind, Handler_bind,
    response, writer.WriteHeaderNow, writer.WriteHeader, writer.Written.
  cbn [ctx cWriter store calls fst snd].
  destruct (Z.ltb_spec 0 code); [| lia]. cbn [andb].
  destruct (wStatus (cWriter (ctx st)) =? code) eqn:Hsame; cbn [negb];
    rewrite ?Hsent; cbn [wSent wStatus wBody default];
    rewrite ?Hsent; cbn [wSent wStatus wBody default]; auto.
  apply Z.eqb_eq in Hsame. rewrite Hsame. auto.
Qed.

(** The state that [AbortWithStatus] leaves when nothing was sent. *)
Lemma AbortWithStatus_sends (st : HState) (code : Z) :
  wSent (cWriter (ctx st)) = None -> 0 < code ->
  wSent (cWriter (ctx (AbortWithStatus code st).2)) = Some code
  /\ wBody (cWriter (ctx (AbortWithStatus code st).2)) = wBody (cWriter (ctx st))
  /\ store (AbortWithStatus code st).2 = store st
  /\ calls (AbortWithStatus code st).2 = calls st.
Proof.
  intros Hsent Hcode.
  unfold AbortWithStatus, Status, Abort, withWriter, withCtx, mbind, Handler_bind,
    writer.WriteHeaderNow, writer.WriteHeader, writer.Written.
  cbn [ctx cWriter store calls fst snd].
  destruct (Z.ltb_spec 0 code); [| lia]. cbn [andb].
  destruct (wStatus (cWriter (ctx st)) =? code) eqn:Hsame; cbn [negb];
    rewrite ?Hsent; cbn [wSent wStatus wBody];
    rewrite ?Hsent; cbn [wSent wStatus wBody]; auto.
  apply Z.eqb_eq in Hsame. rewrite Hsame. auto.
Qed.

(** A chain that ends in [AbortWithStatus] after the header went out:
    the status on the wire stays what it was. *)
Lemma runChain_abort_late (chain : Handler unit) (st0 st : HState)
    (code sent : Z) :
  chain st0 = AbortWithStatus code st ->
  wSent (cWriter (ctx st)) = Some sent ->
  response (runChain chain st0) = mkResponse sent (wBody (cWriter (ctx st)))
  /\ store (runChain chain st0) = store st
  /\ calls (runChain chain st0) = calls st.
Proof.
  intros Hrun Hsent. unfold runChain. rewrite Hrun.
  unfold AbortWithStatus, Status, Abort, withWriter, withCtx, mbind, Handler_bind,
    response, writer.WriteHeaderNow, writer.WriteHeader, writer.Written.
  cbn [ctx cWriter store calls fst snd].
  destruct ((0 <? code) && negb (wStatus (cWriter (ctx st)) =? code));
    rewrite ?Hsent; cbn [wSent wStatus wBody default];
    rewrite ?Hsent; cbn [wSent wStatus wBody default]; auto.
Qed.

(** A chain that ends in [IndentedJSON] before anything was sent. *)
Lemma runChain_json (chain : Handler unit) (st0 st : HState) (code : Z)
    (obj : Body) :
  chain st0 = IndentedJSON code obj st ->
  wSent (cWriter (ctx st)) = None -> 0 < code ->
  bodyAllowedForStatus code = true ->
  response (runChain chain st0)
    = mkResponse code (wBody (cWriter (ctx st)) ++ [obj])%list
  /\ store (runChain chain st0) = store st
  /\ calls (runChain chain st0) = calls st.
Proof.
  intros Hrun Hsent Hcode Hallowed. unfold runChain. rewrite Hrun.
  unfold IndentedJSON. rewrite Hallowed.
  unfold Status, withWriter, withCtx, mbind, Handler_bind,
    response, writer.Write, writer.WriteHeaderNow, writer.WriteHeader,
    writer.Written.
  cbn [ctx cWriter store calls fst snd].
  destruct (Z.ltb_spec 0 code); [| lia]. cbn [andb].
  destruct (wStatus (cWriter (ctx st)) =? code) eqn:Hsame; cbn [negb];
    rewrite ?Hsent; cbn [wSent wStatus wBody default];
    rewrite ?Hsent; cbn [wSent wStatus wBody default]; auto.
  apply Z.eqb_eq in Hsame. rewrite Hsame. auto.
Qed.

(** A chain that ends in [Status] before anything was sent. *)
Lemma runChain_status (chain : Handler unit) (st0 st : HState) (code : Z) :
  chain st0 = Status code st ->
  wSent (cWriter (ctx st)) = None -> 0 < code ->
  response (runChain chain st0) = mkResponse code (wBody (cWriter (ctx st)))
  /\ store (runChain chain st0) = store st
  /\ calls (runChain chain st0) = calls st.
Proof.
  intros Hrun Hsent Hcode. unfold runChain. rewrite Hrun.
  unfold Status, withWriter, withCtx, response, writer.WriteHeaderNow,
    writer.WriteHeader, writer.Written.
  cbn [ctx cWriter store calls fst snd].
  destruct (Z.ltb_spec 0 code); [| lia]. cbn [andb].
  destruct (wStatus (cWriter (ctx st)) =? code) eqn:Hsame; cbn [negb];
    rewrite ?Hsent; cbn [wSent wStatus wBody default];
    rewrite ?Hsent; cbn [wSent wStatus wBody default]; auto.
  apply Z.eqb_eq in Hsame. rewrite Hsame. auto.
Qed.

(** *** The branches of the handlers *)

Lemma Atoi_empty : strconv.Atoi EmptyString = None.
Proof. reflexivity. Qed.

Lemma listOrdersByStatus_rejects (svc : OrderService) (req : Request) (s : Store) :
  (statusParam req = EmptyString
   \/ strconv.Atoi (statusParam req) = None
   \/ exists n, strconv.Atoi (statusParam req) = Some n /\ (n < 0 \/ 2 < n)) ->
  listOrdersByStatus (entered svc req s)
  = AbortWithStatus http.StatusBadRequest (entered svc req s).
Proof.
  intros Hbad. unfold listOrdersByStatus, statusParam in *.
  rewrite bind_MustGet_entered. cbn [asOrderService].
  rewrite bind_Query. cbn [entered ctx cRequest].
  destruct (String.eqb_spec (firstValue (reqQuery req) "status") EmptyString)
    as [Hempty | Hfull]; [reflexivity |].
  destruct Hbad as [Hbad | [Hbad | (n & Hn & Hrange)]].
  - contradiction.
  - rewrite Hbad. reflexivity.
  - rewrite Hn.
    destruct (Z.ltb_spec n 0), (Z.ltb_spec 2 n); cbn [orb]; try reflexivity; lia.
Qed.

Lemma listOrdersByStatus_accepts (svc : OrderService) (req : Request)
    (s : Store) (n : Z) :
  strconv.Atoi (statusParam req) = Some n -> 0 <= n <= 2 ->
  listOrdersByStatus (entered svc req s)
  = match (GetOrdersByStatus (repo svc) n s).1 with
    | Err _ => AbortWithStatus http.StatusInternalServerError
    | Ok orders => IndentedJSON http.StatusOK (JSONOrders orders)
    end (mkHState (ctx (entered svc req s))
                  (GetOrdersByStatus (repo svc) n s).2
                  [CallGetOrdersByStatus n]).
Proof.
  intros Hn Hrange. unfold listOrdersByStatus, statusParam in *.
  rewrite bind_MustGet_entered. cbn [asOrderService].
  rewrite bind_Query. cbn [entered ctx cRequest].
  destruct (String.eqb_spec (firstValue (reqQuery req) "status") EmptyString)
    as [Hempty | Hfull].
  { rewrite Hempty in Hn. discriminate Hn. }
  rewrite Hn.
  destruct (Z.ltb_spec n 0); [lia |]. destruct (Z.ltb_spec 2 n); [lia |].
  cbn [orb]. rewrite bind_call. reflexivity.
Qed.

Lemma getOrder_rejects (svc : OrderService) (req : Request) (s : Store) :
  strconv.Atoi (idParam req) = None ->
  getOrder (entered svc req s)
  = AbortWithStatus http.StatusBadRequest (entered svc req s).
Proof.
  intros Hbad. unfold getOrder, idParam in *.
  rewrite bind_MustGet_entered. cbn [asOrderService].
  rewrite bind_Param. cbn [entered ctx cRequest].
  rewrite Hbad. reflexivity.
Qed.

Lemma getOrder_accepts (svc : OrderService) (req : Request) (s : Store) (id : Z) :
  strconv.Atoi (idParam req) = Some id ->
  getOrder (entered svc req s)
  = match (GetOrder (repo svc) (strconv.FormatInt id) s).1 with
    | Err _ => AbortWithStatus http.StatusInternalServerError
    | Ok order => IndentedJSON http.StatusOK (JSONOrder order)
    end (mkHState (ctx (entered svc req s))
                  (GetOrder (repo svc) (strconv.FormatInt id) s).2
                  [CallGetOrder (strconv.FormatInt id)]).
Proof.
  intros Hid. unfold getOrder, idParam in *.
  rewrite bind_MustGet_entered. cbn [asOrderService].
  rewrite bind_Param. cbn [entered ctx cRequest].
  rewrite Hid. cbv zeta. rewrite bind_call. reflexivity.
Qed.

Lemma updateOrder_malformed (svc : OrderService) (req : Request) (s : Store)
    (e : error) :
  unmarshalOrder (reqBody req) = Err e ->
  updateOrder (entered svc req s)
  = AbortWithStatus http.StatusInternalServerError
      (AbortWithStatus http.StatusBadRequest (entered svc req s)).2.
Proof.
  intros Hbody. unfold updateOrder.
  rewrite bind_MustGet_entered. cbn [asOrderService].
  rewrite (bind_BindJSON_Err _ _ e) by exact Hbody. reflexivity.
Qed.

Lemma updateOrder_rejects (svc : OrderService) (req : Request) (s : Store)
    (order : Order Item) :
  unmarshalOrder (reqBody req) = Ok order ->
  strconv.Atoi (OrderID order) = None ->
  updateOrder (entered svc req s)
  = AbortWithStatus http.StatusBadRequest (entered svc req s).
Proof.
  intros Hbody Hbad. unfold updateOrder.
  rewrite bind_MustGet_entered. cbn [asOrderService].
  rewrite (bind_BindJSON_Ok _ _ order) by exact Hbody.
  rewrite Hbad. reflexivity.
Qed.

Lemma updateOrder_accepts (svc : OrderService) (req : Request) (s : Store)
    (order : Order Item) (id : Z) :
  unmarshalOrder (reqBody req) = Ok order ->
  strconv.Atoi (OrderID order) = Some id ->
  updateOrder (entered svc req s)
  = match (UpdateOrder (repo svc) (sanitized order id) s).1 with
    | Err _ => AbortWithStatus http.StatusInternalServerError
    | Ok _ => Status http.StatusAccepted
    end (mkHState (ctx (entered svc req s))
                  (UpdateOrder (repo svc) (sanitized order id) s).2
                  [CallUpdateOrder (sanitized order id)]).
Proof.
  intros Hbody Hid. unfold updateOrder.
  rewrite bind_MustGet_entered. cbn [asOrderService].
  rewrite (bind_BindJSON_Ok _ _ order) by exact Hbody.
  rewrite Hid. cbv zeta. fold (sanitized order id).
  rewrite bind_call. reflexivity.
Qed.

(** The wire and the log of calls, for a chain that aborts at once. *)
Lemma serve_rejected (svc : OrderService) (r : Route) (req : Request)
    (s : Store) (code : Z) :
  routes r (entered svc req s) = AbortWithStatus code (entered svc req s) ->
  0 < code ->
  response (serve svc r req s) = mkResponse code []
  /\ store (serve svc r req s) = s
  /\ calls (serve svc r req s) = [].
Proof.
  intros Hrun Hcode. rewrite serve_entered.
  apply (runChain_abort _ _ _ _ Hrun); [reflexivity | exact Hcode].
Qed.
End HandlerFacts.

(** ** The handlers against the specification *)

Section HandlerClaims.
Context `{Collaborators}.

(** The list handler hands only statuses 0, 1 and 2 to the repository. *)
Lemma listOrdersByStatus_guards_status (svc : OrderService) (req : Request)
    (s : Store) (n : Status) :
  In (CallGetOrdersByStatus n) (calls (serve svc GET_order req s)) ->
  validStatus n = true.
Proof.
  intros Hin.
  destruct (strconv.Atoi (statusParam req)) as [m |] eqn:Hparse.
  - destruct (Z_le_dec 0 m) as [Hlo | Hlo]; [destruct (Z_le_dec m 2) as [Hhi | Hhi] |].
    + rewrite serve_entered in Hin.
      pose proof (listOrdersByStatus_accepts svc req s m Hparse (conj Hlo Hhi)) as Hrun.
      destruct ((GetOrdersByStatus (repo svc) m s).1) as [orders | e].
      * destruct (runChain_json _ _ _ _ _ Hrun) as (_ & _ & Hcalls);
          [reflexivity | reflexivity | reflexivity |].
        change (routes GET_order) with listOrdersByStatus in Hin.
        rewrite Hcalls in Hin. cbn [calls In] in Hin.
        destruct Hin as [[= <-] | []]. unfold validStatus.
        destruct (Z.leb_spec 0 m), (Z.leb_spec m 2); try reflexivity; lia.
      * destruct (runChain_abort _ _ _ _ Hrun) as (_ & _ & Hcalls);
          [reflexivity | reflexivity |].
        change (routes GET_order) with listOrdersByStatus in Hin.
        rewrite Hcalls in Hin. cbn [calls In] in Hin.
        destruct Hin as [[= <-] | []]. unfold validStatus.
        destruct (Z.leb_spec 0 m), (Z.leb_spec m 2); try reflexivity; lia.
    + destruct (serve_rejected svc GET_order req s 400) as (_ & _ & Hcalls).
      { apply listOrdersByStatus_rejects. right. right. exists m. split; [auto | lia]. }
      { reflexivity. }
      rewrite Hcalls in Hin. destruct Hin.
    + destruct (serve_rejected svc GET_order req s 400) as (_ & _ & Hcalls).
      { apply listOrdersByStatus_rejects. right. right. exists m. split; [auto | lia]. }
      { reflexivity. }
      rewrite Hcalls in Hin. destruct Hin.
  - destruct (serve_rejected svc GET_order req s 400) as (_ & _ & Hcalls).
    { apply listOrdersByStatus_rejects. right. left. exact Hparse. }
    { reflexivity. }
    rewrite Hcalls in Hin. destruct Hin.
Qed.

(** C1, at the input where it fails.  A PUT /order body that decodes to
    an order whose identifier parses is handed to [UpdateOrder] with its
    status unchanged, also when that status is outside 0..2: the update
    handler has no range check of the kind the list handler has. *)
Theorem C1_update_forwards_any_status (svc : OrderService) (req : Request)
    (s : Store) (order : Order Item) (id : Z) :
  unmarshalOrder (reqBody req) = Ok order ->
  strconv.Atoi (OrderID order) = Some id ->
  validStatus (Status_ order) = false ->
  calls (serve svc PUT_order req s) = [CallUpdateOrder (sanitized order id)]
  /\ Status_ (sanitized order id) = Status_ order
  /\ validStatus (Status_ (sanitized order id)) = false.
Proof.
  intros Hbody Hid Hbad. split; [| split; [reflexivity | exact Hbad]].
  rewrite serve_entered.
  pose proof (updateOrder_accepts svc req s order id Hbody Hid) as Hrun.
  destruct ((UpdateOrder (repo svc) (sanitized order id) s).1) as [u | e].
  - destruct (runChain_status _ _ _ _ Hrun) as (_ & _ & Hcalls);
      [reflexivity | reflexivity |]. exact Hcalls.
  - destruct (runChain_abort _ _ _ _ Hrun) as (_ & _ & Hcalls);
      [reflexivity | reflexivity |]. exact Hcalls.
Qed.

(** C3.  GET /order answers 400 without a repository call when the
    [status] parameter is missing, empty, not an integer, or an integer
    outside 0..2; when it parses to [n] in 0..2 the only call is
    [GetOrdersByStatus n], and when that call succeeds the answer is 200
    with the orders it returned. *)
Theorem C3_list_by_status (svc : OrderService) (req : Request) (s : Store) :
  ((reqQuery req !! "status" = None
    \/ statusParam req = EmptyString
    \/ strconv.Atoi (statusParam req) = None
    \/ (exists n, strconv.Atoi (statusParam req) = Some n /\ (n < 0 \/ 2 < n))) ->
   response (serve svc GET_order req s) = mkResponse 400 []
   /\ calls (serve svc GET_order req s) = []
   /\ store (serve svc GET_order req s) = s)
  /\ (forall n, strconv.Atoi (statusParam req) = Some n -> 0 <= n <= 2 ->
      calls (serve svc GET_order req s) = [CallGetOrdersByStatus n]
      /\ forall orders s',
           GetOrdersByStatus (repo svc) n s = (Ok orders, s') ->
           response (serve svc GET_order req s)
             = mkResponse 200 [JSONOrders orders]
           /\ store (serve svc GET_order req s) = s').
Proof.
  split.
  - intros Hbad.
    destruct (serve_rejected svc GET_order req s 400) as (Hresp & Hstore & Hcalls).
    + apply listOrdersByStatus_rejects.
      destruct Hbad as [Hmiss | [Hempty | [Hparse | Hrange]]]; auto.
      left. unfold statusParam, gin.firstValue. rewrite Hmiss. reflexivity.
    + reflexivity.
    + auto.
  - intros n Hparse Hrange. rewrite serve_entered.
    pose proof (listOrdersByStatus_accepts svc req s n Hparse Hrange) as Hrun.
    change (routes GET_order) with listOrdersByStatus.
    split.
    + destruct ((GetOrdersByStatus (repo svc) n s).1) as [orders | e].
      * destruct (runChain_json _ _ _ _ _ Hrun) as (_ & _ & Hcalls);
          [reflexivity | reflexivity | reflexivity |]. exact Hcalls.
      * destruct (runChain_abort _ _ _ _ Hrun) as (_ & _ & Hcalls);
          [reflexivity | reflexivity |]. exact Hcalls.
    + intros orders s' Hok. rewrite Hok in Hrun. cbn [fst snd] in Hrun.
      destruct (runChain_json _ _ _ _ _ Hrun) as (Hresp & Hstore & _);
        [reflexivity | reflexivity | reflexivity |].
      split; [exact Hresp | exact Hstore].
Qed.

(** C2, as amended.  An identifier that a handler accepts reaches the
    repository as [FormatInt] of the integer it parsed to: canonical
    (no zero in front of another digit, no plus sign), parsing back to
    that integer, without any sign when the integer is not negative and
    behind a minus sign when it is. *)
Theorem C2_accepted_ids_are_canonical (svc : OrderService) (req : Request)
    (s : Store) :
  (forall n, strconv.Atoi (idParam req) = Some n ->
     calls (serve svc GET_order_id req s) = [CallGetOrder (strconv.FormatInt n)]
     /\ canonical (strconv.FormatInt n) = true
     /\ strconv.Atoi (strconv.FormatInt n) = Some n
     /\ (0 <= n -> normalized (strconv.FormatInt n) = true)
     /\ (n < 0 -> hasSign (strconv.FormatInt n) = true))
  /\ (forall order n,
       unmarshalOrder (reqBody req) = Ok order ->
       strconv.Atoi (OrderID order) = Some n ->
       exists sent,
         calls (serve svc PUT_order req s) = [CallUpdateOrder sent]
         /\ OrderID sent = strconv.FormatInt n
         /\ canonical (OrderID sent) = true
         /\ strconv.Atoi (OrderID sent) = Some n
         /\ (0 <= n -> normalized (OrderID sent) = true)
         /\ (n < 0 -> hasSign (OrderID sent) = true)).
Proof.
  assert (Hshape : forall n, strconv.minInt <= n <= strconv.maxInt ->
            canonical (strconv.FormatInt n) = true
            /\ strconv.Atoi (strconv.FormatInt n) = Some n
            /\ (0 <= n -> normalized (strconv.FormatInt n) = true)
            /\ (n < 0 -> hasSign (strconv.FormatInt n) = true)).
  { intros n Hn. split; [apply FormatInt_canonical; exact Hn |].
    split; [apply Atoi_FormatInt; exact Hn |]. split.
    - intros Hpos. apply FormatInt_normalized. lia.
    - intros Hneg. destruct (FormatInt_negative n Hneg) as [r ->]. reflexivity. }
  split.
  - intros n Hparse. split; [| apply Hshape, (Atoi_in_range _ _ Hparse)].
    rewrite serve_entered.
    pose proof (getOrder_accepts svc req s n Hparse) as Hrun.
    change (routes GET_order_id) with getOrder.
    destruct ((GetOrder (repo svc) (strconv.FormatInt n) s).1) as [order | e].
    + destruct (runChain_json _ _ _ _ _ Hrun) as (_ & _ & Hcalls);
        [reflexivity | reflexivity | reflexivity |]. exact Hcalls.
    + destruct (runChain_abort _ _ _ _ Hrun) as (_ & _ & Hcalls);
        [reflexivity | reflexivity |]. exact Hcalls.
  - intros order n Hbody Hparse. exists (sanitized order n).
    split; [| split; [reflexivity | apply Hshape, (Atoi_in_range _ _ Hparse)]].
    rewrite serve_entered.
    pose proof (updateOrder_accepts svc req s order n Hbody Hparse) as Hrun.
    change (routes PUT_order) with updateOrder.
    destruct ((UpdateOrder (repo svc) (sanitized order n) s).1) as [u | e].
    + destruct (runChain_status _ _ _ _ Hrun) as (_ & _ & Hcalls);
        [reflexivity | reflexivity |]. exact Hcalls.
    + destruct (runChain_abort _ _ _ _ Hrun) as (_ & _ & Hcalls);
        [reflexivity | reflexivity |]. exact Hcalls.
Qed.

(** C8, as amended.  For a PUT /order whose body decodes to an order: an
    identifier that is not an integer is answered 400 with no repository
    call; one that parses makes [UpdateOrder] the only call, on an order
    with the customer, items and status of the request and the identifier
    replaced by [FormatInt] of the integer it parsed to.  That text is
    canonical (no zero in front of another digit, no plus sign), parses
    back to the same integer, and is in the normal form (no sign at all)
    when the integer is not negative; a negative identifier keeps its
    minus sign.  When the call succeeds the answer is 202. *)
Theorem C8_update_order (svc : OrderService) (req : Request) (s : Store)
    (order : Order Item) :
  unmarshalOrder (reqBody req) = Ok order ->
  (strconv.Atoi (OrderID order) = None ->
     response (serve svc PUT_order req s) = mkResponse 400 []
     /\ calls (serve svc PUT_order req s) = []
     /\ store (serve svc PUT_order req s) = s)
  /\ (forall id, strconv.Atoi (OrderID order) = Some id ->
       exists sent,
         calls (serve svc PUT_order req s) = [CallUpdateOrder sent]
         /\ OrderID sent = strconv.FormatInt id
         /\ CustomerID sent = CustomerID order
         /\ Items sent = Items order
         /\ Status_ sent = Status_ order
         /\ canonical (OrderID sent) = true
         /\ strconv.Atoi (OrderID sent) = Some id
         /\ (0 <= id -> normalized (OrderID sent) = true)
         /\ (id < 0 -> hasSign (OrderID sent) = true)
         /\ forall u s', UpdateOrder (repo svc) sent s = (Ok u, s') ->
              response (serve svc PUT_order req s) = mkResponse 202 []
              /\ store (serve svc PUT_order req s) = s').
Proof.
  intros Hbody. split.
  - intros Hbad.
    destruct (serve_rejected svc PUT_order req s 400) as (Hresp & Hstore & Hcalls);
      [apply (updateOrder_rejects svc req s order Hbody Hbad) | reflexivity |].
    auto.
  - intros id Hid. exists (sanitized order id).
    pose proof (Atoi_in_range _ _ Hid) as Hrange.
    rewrite serve_entered. change (routes PUT_order) with updateOrder.
    pose proof (updateOrder_accepts svc req s order id Hbody Hid) as Hrun.
    split; [| do 4 (split; [reflexivity |]);
              split; [apply FormatInt_canonical; exact Hrange |];
              split; [apply Atoi_FormatInt; exact Hrange |];
              split; [intros Hpos; apply FormatInt_normalized; lia |];
              split; [intros Hneg;
                      destruct (FormatInt_negative id Hneg) as [r Hr];
                      cbn [sanitized OrderID]; rewrite Hr; reflexivity |]].
    + destruct ((UpdateOrder (repo svc) (sanitized order id) s).1) as [u | e].
      * destruct (runChain_status _ _ _ _ Hrun) as (_ & _ & Hcalls);
          [reflexivity | reflexivity |]. exact Hcalls.
      * destruct (runChain_abort _ _ _ _ Hrun) as (_ & _ & Hcalls);
          [reflexivity | reflexivity |]. exact Hcalls.
    + intros u s' Hok. rewrite Hok in Hrun. cbn [fst snd] in Hrun.
      destruct (runChain_status _ _ _ _ Hrun) as (Hresp & Hstore & _);
        [reflexivity | reflexivity |].
      split; [exact Hresp | exact Hstore].
Qed.

(** C10, at the input where it fails.  A PUT /order whose body does not
    decode makes no repository call, and the status on the wire is 400:
    [BindJSON] has sent it before the handler asks for 500. *)
Theorem C10_malformed_body_is_answered_400 (svc : OrderService)
    (req : Request) (s : Store) (e : error) :
  unmarshalOrder (reqBody req) = Err e ->
  response (serve svc PUT_order req s) = mkResponse 400 []
  /\ calls (serve svc PUT_order req s) = []
  /\ store (serve svc PUT_order req s) = s.
Proof.
  intros Hbody. rewrite serve_entered. change (routes PUT_order) with updateOrder.
  pose proof (updateOrder_malformed svc req s e Hbody) as Hrun.
  destruct (AbortWithStatus_sends (entered svc req s) http.StatusBadRequest)
    as (Hsent & Hbodyw & Hstore & Hcalls); [reflexivity | reflexivity |].
  destruct (runChain_abort_late _ _ _ _ _ Hrun Hsent) as (Hresp & Hst & Hc).
  rewrite Hresp, Hst, Hc, Hbodyw, Hstore, Hcalls. auto.
Qed.

(** C9.  GET /order/fetch calls the queue, then [InsertOrders] with the
    batch it got, then [GetPendingOrders], in that order, and answers
    200 with the pending orders; the first of the three that fails ends
    the sequence, and the answer is then 500 without a body. *)
Theorem C9_fetch_and_ingest (svc : OrderService) (req : Request) (s : Store) :
  let out := serve svc GET_order_fetch req s in
  let fetched := getOrdersFromQueue s in
  match fetched.1 with
  | Err _ =>
      response out = mkResponse 500 [] /\ calls out = [CallQueue]
      /\ store out = fetched.2
  | Ok batch =>
      let inserted := InsertOrders (repo svc) batch fetched.2 in
      match inserted.1 with
      | Err _ =>
          response out = mkResponse 500 []
          /\ calls out = [CallQueue; CallInsertOrders batch]
          /\ store out = inserted.2
      | Ok _ =>
          let pending := GetPendingOrders (repo svc) inserted.2 in
          calls out = [CallQueue; CallInsertOrders batch; CallGetPendingOrders]
          /\ store out = pending.2
          /\ response out =
              match pending.1 with
              | Err _ => mkResponse 500 []
              | Ok orders => mkResponse 200 [JSONOrders orders]
              end
      end
  end.
Proof.
  cbv zeta. rewrite serve_entered. change (routes GET_order_fetch) with fetchOrders.
  assert (Hrun : fetchOrders (entered svc req s) = fetchOrders (entered svc req s))
    by reflexivity.
  unfold fetchOrders at 2 in Hrun.
  rewrite bind_MustGet_entered in Hrun. cbn [asOrderService] in Hrun.
  rewrite bind_call in Hrun. cbn [entered store calls ctx app] in Hrun.
  destruct (getOrdersFromQueue s) as [[batch | e] s1]; cbn [fst snd] in *.
  - rewrite bind_call in Hrun. cbn [store calls ctx app] in Hrun.
    destruct (InsertOrders (repo svc) batch s1) as [[u | e] s2]; cbn [fst snd] in *.
    + rewrite bind_call in Hrun. cbn [store calls ctx app] in Hrun.
      destruct (GetPendingOrders (repo svc) s2) as [[orders | e] s3];
        cbn [fst snd] in *.
      * destruct (runChain_json _ _ _ _ _ Hrun) as (Hresp & Hstore & Hcalls);
          [reflexivity | reflexivity | reflexivity |]. auto.
      * destruct (runChain_abort _ _ _ _ Hrun) as (Hresp & Hstore & Hcalls);
          [reflexivity | reflexivity |]. auto.
    + destruct (runChain_abort _ _ _ _ Hrun) as (Hresp & Hstore & Hcalls);
        [reflexivity | reflexivity |]. auto.
  - destruct (runChain_abort _ _ _ _ Hrun) as (Hresp & Hstore & Hcalls);
      [reflexivity | reflexivity |]. auto.
Qed.
End HandlerClaims.

(** C4.  Formatting an identifier [n >= 0] of the [int] type and parsing
    the text gives [n] back. *)
Theorem C4_id_roundtrip (n : Z) :
  0 <= n -> n <= strconv.maxInt ->
  strconv.Atoi (strconv.FormatInt n) = Some n.
Proof.
  intros Hlo Hhi. apply Atoi_FormatInt.
  pose proof minInt_value. lia.
Qed.

(** ** The factory against the specification *)

Section FactoryClaims.
Context `{Collaborators}.

Ltac unfold_startup :=
  cbv beta iota zeta delta
    [initDatabase getEnvVar fallbackLoop os.Getenv os.Exit construct wrap
     mbind Startup_bind mret Startup_ret settingValue firstSet fst snd].

(** Case analysis on every test of a variable against a literal. *)
Ltac split_tests :=
  repeat
    (match goal with
     | |- context [String.eqb (os.valueOf ?env ?n) ?v] =>
         destruct (String.eqb_spec (os.valueOf env n) v)
     end;
     change (String.eqb "false" "true") with false;
     cbv beta iota zeta).

(** A branch that exited although no required setting is absent. *)
Ltac not_absent :=
  match goal with
  | Hk : ~ absent _ _ |- _ =>
      solve [exfalso; apply Hk; split; cbn [fst snd];
             [assumption | repeat constructor; assumption]]
  end.

(** C5.  When a required setting of the selected branch is absent
    (empty under its name and under each fallback name), start-up ends
    the process with exit code 1, returns nothing, and has called no
    backend constructor. *)
Theorem C5_missing_setting_is_fatal (env : gmap string string)
    (apiType : string) (k : Setting) :
  In k (requiredSettings apiType) ->
  absent env k ->
  exists log,
    initDatabase apiType env [] = (Exited 1, log)
    /\ constructions log = [].
Proof.
  intros Hin [Hown Hfallbacks]. unfold requiredSettings in Hin.
  unfold_startup.
  destruct (String.eqb apiType AZURE_COSMOS_DB_SQL_API);
    cbn [app In] in Hin;
    repeat (destruct Hin as [<- | Hin]; [| try contradiction]);
    cbn [fst snd] in Hown, Hfallbacks;
    repeat match goal with
           | Hf : Forall _ (_ :: _) |- _ => inversion_clear Hf
           end;
    split_tests;
    try congruence;
    eexists; (split; [reflexivity | reflexivity]).
Qed.

(** C6.  With no required setting absent, start-up goes through for
    every selector, calls exactly one backend constructor and returns
    what that constructor gave, a repository wrapped in the order
    service; the constructor is a CosmosDB one exactly when the selector
    is ["cosmosdbsql"], and the MongoDB one for every other selector. *)
Theorem C6_backend_selection (env : gmap string string) (apiType : string) :
  Forall (fun k => ~ absent env k) (requiredSettings apiType) ->
  exists r log ev built,
    initDatabase apiType env [] = (Running r, log)
    /\ constructions log = [ev]
    /\ constructed ev = Some built
    /\ r = match built with
           | Ok repo => Ok (NewOrderService repo)
           | Err e => Err e
           end
    /\ (isCosmos ev = true <-> apiType = AZURE_COSMOS_DB_SQL_API)
    /\ (isMongo ev = true <-> apiType <> AZURE_COSMOS_DB_SQL_API).
Proof.
  intros Hall. unfold requiredSettings in Hall. unfold_startup.
  destruct (String.eqb_spec apiType AZURE_COSMOS_DB_SQL_API) as [Hapi | Hapi];
    cbn [app] in Hall;
    repeat match goal with
           | Hf : Forall _ (_ :: _) |- _ => inversion_clear Hf
           | Hf : Forall _ [] |- _ => clear Hf
           end;
    split_tests;
    try not_absent;
    (do 4 eexists;
     split; [reflexivity |];
     split; [reflexivity |];
     split; [reflexivity |];
     split; [reflexivity |];
     cbn [isCosmos isMongo];
     split; split; intros; congruence).
Qed.

(** C7.  For the partitioned backend with no required setting absent:
    when USE_WORKLOAD_IDENTITY_AUTH is ["true"], the only constructor
    called is the managed-identity one, on the URI, database, container
    and partition key, and ORDER_DB_PASSWORD is never read; for every
    other value of the flag, and when the flag is unset, the only
    constructor called is the shared-key one, on the same values plus
    the value of ORDER_DB_PASSWORD. *)
Theorem C7_authentication_mode (env : gmap string string) :
  Forall (fun k => ~ absent env k) (requiredSettings AZURE_COSMOS_DB_SQL_API) ->
  let flag := os.valueOf env "USE_WORKLOAD_IDENTITY_AUTH" in
  let uri := settingValue env ("AZURE_COSMOS_RESOURCEENDPOINT", ["ORDER_DB_URI"]) in
  let db := os.valueOf env "ORDER_DB_NAME" in
  let container := os.valueOf env "ORDER_DB_CONTAINER_NAME" in
  let pk := mkPartitionKey (os.valueOf env "ORDER_DB_PARTITION_KEY")
                           (os.valueOf env "ORDER_DB_PARTITION_VALUE") in
  let password := os.valueOf env "ORDER_DB_PASSWORD" in
  exists r log,
    initDatabase AZURE_COSMOS_DB_SQL_API env [] = (Running r, log)
    /\ (flag = "true" ->
        constructions log = [ConstructCosmosManagedIdentity uri db container pk]
        /\ ~ In "ORDER_DB_PASSWORD" (readsOf log)
        /\ r = wrap (NewCosmosDBOrderRepoWithManagedIdentity uri db container pk))
    /\ (flag <> "true" ->
        constructions log = [ConstructCosmosSharedKey uri db container password pk]
        /\ r = wrap (NewCosmosDBOrderRepo uri db container password pk))
    /\ (env !! "USE_WORKLOAD_IDENTITY_AUTH" = None ->
        constructions log = [ConstructCosmosSharedKey uri db container password pk]).
Proof.
  intros Hall. unfold requiredSettings in Hall.
  change (String.eqb AZURE_COSMOS_DB_SQL_API AZURE_COSMOS_DB_SQL_API)
    with true in Hall.
  assert (Hunset : env !! "USE_WORKLOAD_IDENTITY_AUTH" = None ->
                   os.valueOf env "USE_WORKLOAD_IDENTITY_AUTH" = EmptyString).
  { intros Hnone. unfold os.valueOf. rewrite Hnone. reflexivity. }
  unfold_startup.
  change (String.eqb AZURE_COSMOS_DB_SQL_API AZURE_COSMOS_DB_SQL_API) with true.
  cbv iota.
  cbn [app] in Hall;
    repeat match goal with
           | Hf : Forall _ (_ :: _) |- _ => inversion_clear Hf
           | Hf : Forall _ [] |- _ => clear Hf
           end;
    split_tests;
    try not_absent;
    (do 2 eexists;
     split; [reflexivity |];
     split; [intros Htrue | split; [intros Hother | intros Hnone]];
     try congruence;
     try (specialize (Hunset Hnone); congruence);
     repeat split; try reflexivity;
     cbn; intros Hin;
     repeat (destruct Hin as [Hin | Hin]; [discriminate Hin |]);
     exact Hin).
Qed.
End FactoryClaims.

(** ** The theorems at concrete requests and configurations *)

Section Concrete.
#[local] Existing Instance Demo.collaborators.

Ltac setting_present :=
  let Hown := fresh "Hown" in
  let Hfb := fresh "Hfb" in
  intros [Hown Hfb];
  first [ discriminate Hown
        | inversion Hfb as [| ? ? Hfirst ?]; discriminate Hfirst ].

(** C1: status 5 reaches [UpdateOrder]. *)
Lemma C1_witness :
  calls (serve Demo.service PUT_order (Demo.request ∅ [] "7|alice|5") Demo.seeded)
  = [Demo.callUpdateOrder (mkOrder "7" "alice" [] 5)]
  /\ validStatus 5 = false.
Proof.
  destruct (C1_update_forwards_any_status Demo.service
              (Demo.request ∅ [] "7|alice|5") Demo.seeded
              (mkOrder "7" "alice" [] 5) 7 eq_refl eq_refl eq_refl)
    as (Hcalls & _ & Hbad).
  split; [exact Hcalls | exact Hbad].
Defined.

(** C2 as stated fails: GET /order/-5 is accepted (answered 200), and
    the identifier handed to the repository carries a sign. *)
Lemma C2_negative_id_keeps_its_sign :
  response (serve Demo.service GET_order_id Demo.getMinusFive Demo.withNegative)
  = mkResponse 200 [Demo.jsonOrder Demo.returned]
  /\ calls (serve Demo.service GET_order_id Demo.getMinusFive Demo.withNegative)
     = [Demo.callGetOrder "-5"]
  /\ strconv.Atoi (idParam Demo.getMinusFive) = Some (-5)
  /\ hasSign "-5" = true
  /\ normalized "-5" = false.
Proof. vm_compute. repeat (split; [reflexivity |]). reflexivity. Qed.

Lemma C2_witness :
  calls (serve Demo.service GET_order_id
           (Demo.request ∅ [("id", "+007")] "") Demo.seeded)
  = [Demo.callGetOrder "7"]
  /\ normalized "7" = true
  /\ (exists sent,
        calls (serve Demo.service PUT_order
                 (Demo.request ∅ [] "-05|bob|2") Demo.withNegative)
        = [Demo.callUpdateOrder sent]
        /\ OrderID sent = "-5").
Proof.
  destruct (C2_accepted_ids_are_canonical Demo.service
              (Demo.request ∅ [("id", "+007")] "") Demo.seeded) as [Hget _].
  destruct (Hget 7 eq_refl) as (Hcalls & _ & _ & Hnorm & _).
  destruct (C2_accepted_ids_are_canonical Demo.service
              (Demo.request ∅ [] "-05|bob|2") Demo.withNegative) as [_ Hput].
  destruct (Hput (mkOrder "-05" "bob" [] 2) (-5) eq_refl eq_refl)
    as (sent & Hsent & Hid & _).
  split; [exact Hcalls |]. split; [apply Hnorm; lia |].
  exists sent. split; [exact Hsent | exact Hid].
Defined.

Lemma C3_witness :
  response (serve Demo.service GET_order
              (Demo.request {[ "status" := ["7"] ]} [] "") Demo.seeded)
  = mkResponse 400 []
  /\ response (serve Demo.service GET_order
                 (Demo.request {[ "status" := ["0"] ]} [] "") Demo.seeded)
     = mkResponse 200 [Demo.jsonOrders [Demo.order7]].
Proof.
  split.
  - destruct (C3_list_by_status Demo.service
                (Demo.request {[ "status" := ["7"] ]} [] "") Demo.seeded)
      as [Hreject _].
    apply Hreject. right. right. right. exists 7.
    split; [reflexivity | right; lia].
  - destruct (C3_list_by_status Demo.service
                (Demo.request {[ "status" := ["0"] ]} [] "") Demo.seeded)
      as [_ Haccept].
    destruct (Haccept 0 eq_refl ltac:(lia)) as [_ Hok].
    apply (Hok [Demo.order7] Demo.seeded eq_refl).
Defined.

Lemma C4_witness : strconv.Atoi (strconv.FormatInt 42) = Some 42.
Proof.
  apply C4_id_roundtrip; [lia | rewrite maxInt_value; lia].
Defined.

Lemma C5_witness :
  exists log,
    initDatabase "cosmosdbsql" Demo.noPartitionValueEnv [] = (Exited 1, log)
    /\ constructions log = [].
Proof.
  apply (C5_missing_setting_is_fatal Demo.noPartitionValueEnv "cosmosdbsql"
           ("ORDER_DB_PARTITION_VALUE", [])).
  - cbn. auto 10.
  - split; [reflexivity | constructor].
Defined.

Lemma C6_witness :
  exists r log ev built,
    initDatabase "mongodb" Demo.mongoEnv [] = (Running r, log)
    /\ constructions log = [ev]
    /\ constructed ev = Some built
    /\ r = match built with
           | Ok repo => Ok (NewOrderService repo)
           | Err e => Err e
           end
    /\ (isCosmos ev = true <-> "mongodb" = AZURE_COSMOS_DB_SQL_API)
    /\ (isMongo ev = true <-> "mongodb" <> AZURE_COSMOS_DB_SQL_API).
Proof.
  apply (C6_backend_selection Demo.mongoEnv "mongodb").
  repeat constructor; setting_present.
Defined.

Lemma C7_witness :
  exists r log,
    initDatabase AZURE_COSMOS_DB_SQL_API Demo.identityEnv [] = (Running r, log)
    /\ constructions log
       = [ConstructCosmosManagedIdentity "https://db.example" "orders" "c"
            (mkPartitionKey "storeId" "pets")]
    /\ ~ In "ORDER_DB_PASSWORD" (readsOf log).
Proof.
  destruct (C7_authentication_mode Demo.identityEnv) as (r & log & Hrun & Htrue & _).
  - repeat constructor; setting_present.
  - exists r, log. split; [exact Hrun |].
    destruct (Htrue eq_refl) as (Hbuilt & Hquiet & _).
    split; [exact Hbuilt | exact Hquiet].
Defined.

(** C8 as stated fails: the body of PUT /order with OrderID ["-05"]
    decodes, the identifier parses, [UpdateOrder] succeeds and the answer
    is 202, but the identifier of the order handed to the repository is
    ["-5"], which carries a sign and so is not in the normal form. *)
Lemma C8_negative_id_is_not_normalized :
  unmarshalOrder "-05|bob|2" = Ok (mkOrder "-05" "bob" [] 2)
  /\ strconv.Atoi "-05" = Some (-5)
  /\ response (serve Demo.service PUT_order
                 (Demo.request ∅ [] "-05|bob|2") Demo.withNegative)
     = mkResponse 202 []
  /\ calls (serve Demo.service PUT_order
              (Demo.request ∅ [] "-05|bob|2") Demo.withNegative)
     = [Demo.callUpdateOrder (mkOrder "-5" "bob" [] 2)]
  /\ hasSign "-5" = true
  /\ normalized "-5" = false.
Proof. vm_compute. repeat (split; [reflexivity |]). reflexivity. Qed.

Lemma C8_witness :
  response (serve Demo.service PUT_order
              (Demo.request ∅ [] "seven|alice|2") Demo.seeded)
  = mkResponse 400 []
  /\ response (serve Demo.service PUT_order
                 (Demo.request ∅ [] "007|alice|2") Demo.seeded)
     = mkResponse 202 []
  /\ (exists sent,
        calls (serve Demo.service PUT_order
                 (Demo.request ∅ [] "007|alice|2") Demo.seeded)
        = [Demo.callUpdateOrder sent]
        /\ OrderID sent = "7"
        /\ normalized (OrderID sent) = true).
Proof.
  split; [| split].
  - destruct (C8_update_order Demo.service
                (Demo.request ∅ [] "seven|alice|2") Demo.seeded
                (mkOrder "seven" "alice" [] 2) eq_refl) as [Hreject _].
    apply Hreject. reflexivity.
  - destruct (C8_update_order Demo.service
                (Demo.request ∅ [] "007|alice|2") Demo.seeded
                (mkOrder "007" "alice" [] 2) eq_refl) as [_ Haccept].
    destruct (Haccept 7 eq_refl)
      as (sent & _ & Hid & Hcustomer & Hitems & Hstatus & _ & _ & _ & _ & Hok).
    destruct sent as [id customer items status].
    cbn in Hid, Hcustomer, Hitems, Hstatus. subst id customer items status.
    eapply Hok. reflexivity.
  - destruct (C8_update_order Demo.service
                (Demo.request ∅ [] "007|alice|2") Demo.seeded
                (mkOrder "007" "alice" [] 2) eq_refl) as [_ Haccept].
    destruct (Haccept 7 eq_refl)
      as (sent & Hcalls & Hid & _ & _ & _ & _ & _ & Hnorm & _).
    exists sent. split; [exact Hcalls |]. split; [exact Hid |].
    apply Hnorm. lia.
Defined.

Lemma C10_witness :
  response (serve Demo.service PUT_order
              (Demo.request ∅ [] "not an order") Demo.seeded)
  = mkResponse 400 []
  /\ calls (serve Demo.service PUT_order
              (Demo.request ∅ [] "not an order") Demo.seeded) = [].
Proof.
  destruct (C10_malformed_body_is_answered_400 Demo.service
              (Demo.request ∅ [] "not an order") Demo.seeded
              "unexpected end of input" eq_refl) as (Hresp & Hcalls & _).
  split; [exact Hresp | exact Hcalls].
Defined.

(** With a password configured and the flag unset, the partitioned
    backend is built with the shared key. *)
Example shared_key_by_default :
  constructions (initDatabase AZURE_COSMOS_DB_SQL_API Demo.cosmosEnv []).2
  = [ConstructCosmosSharedKey "https://db.example" "orders" "c" "secret"
       (mkPartitionKey "storeId" "pets")]
  /\ readsOf (initDatabase AZURE_COSMOS_DB_SQL_API Demo.cosmosEnv []).2
     = ["AZURE_COSMOS_RESOURCEENDPOINT"; "ORDER_DB_URI"; "ORDER_DB_NAME";
        "ORDER_DB_CONTAINER_NAME"; "ORDER_DB_PARTITION_KEY";
        "ORDER_DB_PARTITION_VALUE"; "USE_WORKLOAD_IDENTITY_AUTH";
        "ORDER_DB_PASSWORD"].
Proof. vm_compute. split; reflexivity. Qed.

(** The scenario of the specification's section 8 on GET /order/fetch:
    a queued order is stored and comes back as pending. *)
Example fetch_returns_pending :
  response (serve Demo.service GET_order_fetch (Demo.request ∅ [] "")
              (Demo.mkMemStore [Demo.order7] [Demo.returned]))
  = mkResponse 200 [Demo.jsonOrders [Demo.order7]]
  /\ store (serve Demo.service GET_order_fetch (Demo.request ∅ [] "")
              (Demo.mkMemStore [Demo.order7] [Demo.returned]))
     = Demo.mkMemStore [] [Demo.returned; Demo.order7].
Proof. vm_compute. split; reflexivity. Qed.
End Concrete.

(** * Further properties of the handlers *)

Section HandlerCases.
Context `{Collaborators}.

(** A chain that panics: the recovery middleware answers 500. *)
Lemma runChain_panic (chain : Handler unit) (st0 st : HState) (msg : string) :
  chain st0 = (Panicked msg, st) ->
  wSent (cWriter (ctx st)) = None ->
  response (runChain chain st0) = mkResponse 500 (wBody (cWriter (ctx st)))
  /\ store (runChain chain st0) = store st
  /\ calls (runChain chain st0) = calls st.
Proof.
  intros Hrun Hsent. unfold runChain. rewrite Hrun.
  destruct (AbortWithStatus_sends st http.StatusInternalServerError Hsent)
    as (Hs & Hb & Hst & Hc); [reflexivity |].
  unfold response, withWriter, withCtx, writer.WriteHeaderNow, writer.Written.
  cbn [ctx cWriter store calls fst snd].
  rewrite Hs. cbn [wSent wBody default]. rewrite Hs, Hb, Hst, Hc.
  cbn [default]. auto.
Qed.

(** What GET /order/:id does, case by case. *)
Lemma serve_get_cases (svc : OrderService) (req : Request) (s : Store) :
  (strconv.Atoi (idParam req) = None
   /\ response (serve svc GET_order_id req s) = mkResponse 400 []
   /\ calls (serve svc GET_order_id req s) = []
   /\ store (serve svc GET_order_id req s) = s)
  \/ (exists id,
        strconv.Atoi (idParam req) = Some id
        /\ calls (serve svc GET_order_id req s)
           = [CallGetOrder (strconv.FormatInt id)]
        /\ store (serve svc GET_order_id req s)
           = (GetOrder (repo svc) (strconv.FormatInt id) s).2
        /\ response (serve svc GET_order_id req s)
           = match (GetOrder (repo svc) (strconv.FormatInt id) s).1 with
             | Ok order => mkResponse 200 [JSONOrder order]
             | Err _ => mkResponse 500 []
             end).
Proof.
  destruct (strconv.Atoi (idParam req)) as [id |] eqn:Hid.
  - right. exists id. split; [reflexivity |].
    rewrite serve_entered. change (routes GET_order_id) with getOrder.
    pose proof (getOrder_accepts svc req s id Hid) as Hrun.
    destruct ((GetOrder (repo svc) (strconv.FormatInt id) s).1) as [order | e].
    + destruct (runChain_json _ _ _ _ _ Hrun) as (Hresp & Hstore & Hcalls);
        [reflexivity | reflexivity | reflexivity |]. auto.
    + destruct (runChain_abort _ _ _ _ Hrun) as (Hresp & Hstore & Hcalls);
        [reflexivity | reflexivity |]. auto.
  - left. split; [reflexivity |].
    destruct (serve_rejected svc GET_order_id req s 400) as (Hresp & Hstore & Hcalls);
      [apply (getOrder_rejects svc req s Hid) | reflexivity |]. auto.
Qed.

(** What GET /order does, case by case. *)
Lemma serve_list_cases (svc : OrderService) (req : Request) (s : Store) :
  (response (serve svc GET_order req s) = mkResponse 400 []
   /\ calls (serve svc GET_order req s) = []
   /\ store (serve svc GET_order req s) = s)
  \/ (exists n,
        strconv.Atoi (statusParam req) = Some n /\ 0 <= n <= 2
        /\ calls (serve svc GET_order req s) = [CallGetOrdersByStatus n]
        /\ store (serve svc GET_order req s)
           = (GetOrdersByStatus (repo svc) n s).2
        /\ response (serve svc GET_order req s)
           = match (GetOrdersByStatus (repo svc) n s).1 with
             | Ok orders => mkResponse 200 [JSONOrders orders]
             | Err _ => mkResponse 500 []
             end).
Proof.
  assert (Hreject : (statusParam req = EmptyString
            \/ strconv.Atoi (statusParam req) = None
            \/ exists n, strconv.Atoi (statusParam req) = Some n /\ (n < 0 \/ 2 < n)) ->
          response (serve svc GET_order req s) = mkResponse 400 []
          /\ calls (serve svc GET_order req s) = []
          /\ store (serve svc GET_order req s) = s).
  { intros Hbad.
    destruct (serve_rejected svc GET_order req s 400) as (Hresp & Hstore & Hcalls);
      [apply (listOrdersByStatus_rejects svc req s Hbad) | reflexivity |]. auto. }
  destruct (strconv.Atoi (statusParam req)) as [n |] eqn:Hparse.
  - destruct (Z_lt_dec n 0) as [Hlo | Hlo].
    { left. apply Hreject. right. right. exists n. auto. }
    destruct (Z_lt_dec 2 n) as [Hhi | Hhi].
    { left. apply Hreject. right. right. exists n. auto. }
    right. exists n. split; [reflexivity |]. split; [lia |].
    rewrite serve_entered. change (routes GET_order) with listOrdersByStatus.
    pose proof (listOrdersByStatus_accepts svc req s n Hparse ltac:(lia)) as Hrun.
    destruct ((GetOrdersByStatus (repo svc) n s).1) as [orders | e].
    + destruct (runChain_json _ _ _ _ _ Hrun) as (Hresp & Hstore & Hcalls);
        [reflexivity | reflexivity | reflexivity |]. auto.
    + destruct (runChain_abort _ _ _ _ Hrun) as (Hresp & Hstore & Hcalls);
        [reflexivity | reflexivity |]. auto.
  - left. apply Hreject. auto.
Qed.

(** What PUT /order does, case by case. *)
Lemma serve_update_cases (svc : OrderService) (req : Request) (s : Store) :
  (response (serve svc PUT_order req s) = mkResponse 400 []
   /\ calls (serve svc PUT_order req s) = []
   /\ store (serve svc PUT_order req s) = s)
  \/ (exists order id,
        unmarshalOrder (reqBody req) = Ok order
        /\ strconv.Atoi (OrderID order) = Some id
        /\ calls (serve svc PUT_order req s)
           = [CallUpdateOrder (sanitized order id)]
        /\ store (serve svc PUT_order req s)
           = (UpdateOrder (repo svc) (sanitized order id) s).2
        /\ response (serve svc PUT_order req s)
           = match (UpdateOrder (repo svc) (sanitized order id) s).1 with
             | Ok _ => mkResponse 202 []
             | Err _ => mkResponse 500 []
             end).
Proof.
  destruct (unmarshalOrder (reqBody req)) as [order | e] eqn:Hbody.
  - destruct (strconv.Atoi (OrderID order)) as [id |] eqn:Hid.
    + right. exists order, id. split; [reflexivity |]. split; [exact Hid |].
      rewrite serve_entered. change (routes PUT_order) with updateOrder.
      pose proof (updateOrder_accepts svc req s order id Hbody Hid) as Hrun.
      destruct ((UpdateOrder (repo svc) (sanitized order id) s).1) as [u | e].
      * destruct (runChain_status _ _ _ _ Hrun) as (Hresp & Hstore & Hcalls);
          [reflexivity | reflexivity |]. auto.
      * destruct (runChain_abort _ _ _ _ Hrun) as (Hresp & Hstore & Hcalls);
          [reflexivity | reflexivity |]. auto.
    + left.
      destruct (serve_rejected svc PUT_order req s 400) as (Hresp & Hstore & Hcalls);
        [apply (updateOrder_rejects svc req s order Hbody Hid) | reflexivity |].
      auto.
  - left. rewrite serve_entered. change (routes PUT_order) with updateOrder.
    pose proof (updateOrder_malformed svc req s e Hbody) as Hrun.
    destruct (AbortWithStatus_sends (entered svc req s) http.StatusBadRequest)
      as (Hsent & Hbodyw & Hstore & Hcalls); [reflexivity | reflexivity |].
    destruct (runChain_abort_late _ _ _ _ _ Hrun Hsent) as (Hresp & Hst & Hc).
    rewrite Hresp, Hst, Hc, Hbodyw, Hstore, Hcalls. auto.
Qed.

(** What GET /order/fetch does, case by case. *)
Lemma serve_fetch_cases (svc : OrderService) (req : Request) (s : Store) :
  (response (serve svc GET_order_fetch req s) = mkResponse 500 []
   /\ (calls (serve svc GET_order_fetch req s) = [CallQueue]
       \/ exists batch,
            calls (serve svc GET_order_fetch req s)
            = [CallQueue; CallInsertOrders batch]
            \/ calls (serve svc GET_order_fetch req s)
               = [CallQueue; CallInsertOrders batch; CallGetPendingOrders]))
  \/ (exists batch orders,
        response (serve svc GET_order_fetch req s)
        = mkResponse 200 [JSONOrders orders]
        /\ calls (serve svc GET_order_fetch req s)
           = [CallQueue; CallInsertOrders batch; CallGetPendingOrders]).
Proof.
  rewrite serve_entered. change (routes GET_order_fetch) with fetchOrders.
  assert (Hrun : fetchOrders (entered svc req s) = fetchOrders (entered svc req s))
    by reflexivity.
  unfold fetchOrders at 2 in Hrun.
  rewrite bind_MustGet_entered in Hrun. cbn [asOrderService] in Hrun.
  rewrite bind_call in Hrun. cbn [entered store calls ctx app] in Hrun.
  destruct (getOrdersFromQueue s) as [[batch | e] s1]; cbn [fst snd] in *.
  - rewrite bind_call in Hrun. cbn [store calls ctx app] in Hrun.
    destruct (InsertOrders (repo svc) batch s1) as [[u | e] s2]; cbn [fst snd] in *.
    + rewrite bind_call in Hrun. cbn [store calls ctx app] in Hrun.
      destruct (GetPendingOrders (repo svc) s2) as [[orders | e] s3];
        cbn [fst snd] in *.
      * destruct (runChain_json _ _ _ _ _ Hrun) as (Hresp & Hstore & Hcalls);
          [reflexivity | reflexivity | reflexivity |].
        right. exists batch, orders. auto.
      * destruct (runChain_abort _ _ _ _ Hrun) as (Hresp & Hstore & Hcalls);
          [reflexivity | reflexivity |].
        left. split; [exact Hresp |]. right. exists batch. right. exact Hcalls.
    + destruct (runChain_abort _ _ _ _ Hrun) as (Hresp & Hstore & Hcalls);
        [reflexivity | reflexivity |].
      left. split; [exact Hresp |]. right. exists batch. left. exact Hcalls.
  - destruct (runChain_abort _ _ _ _ Hrun) as (Hresp & Hstore & Hcalls);
      [reflexivity | reflexivity |].
    left. split; [exact Hresp |]. left. exact Hcalls.
Qed.

End HandlerCases.

(** * Further properties of the handlers: what a client can rely on *)

Section HandlerExtras.
Context `{Collaborators}.

(** GET /order/:id with an identifier that is not an integer is answered
    400; the repository is not called and the store is untouched. *)
Theorem getOrder_rejects_bad_id (svc : OrderService) (req : Request) (s : Store) :
  strconv.Atoi (idParam req) = None ->
  response (serve svc GET_order_id req s) = mkResponse 400 []
  /\ calls (serve svc GET_order_id req s) = []
  /\ store (serve svc GET_order_id req s) = s.
Proof.
  intros Hbad.
  destruct (serve_get_cases svc req s) as [(_ & Hr & Hc & Hs) | (id & Hid & _)];
    [auto | congruence].
Qed.

(** GET /order/:id whose lookup succeeds is answered 200 with exactly the
    order the repository returned, after that one call. *)
Theorem getOrder_returns_order (svc : OrderService) (req : Request) (s s' : Store)
    (id : Z) (order : Order Item) :
  strconv.Atoi (idParam req) = Some id ->
  GetOrder (repo svc) (strconv.FormatInt id) s = (Ok order, s') ->
  response (serve svc GET_order_id req s) = mkResponse 200 [JSONOrder order]
  /\ calls (serve svc GET_order_id req s) = [CallGetOrder (strconv.FormatInt id)]
  /\ store (serve svc GET_order_id req s) = s'.
Proof.
  intros Hid Hok.
  destruct (serve_get_cases svc req s) as [(Hbad & _) | (id' & Hid' & Hc & Hs & Hr)];
    [congruence |].
  assert (id' = id) by congruence. subst id'.
  rewrite Hok in Hr, Hs. auto.
Qed.

(** A failing repository call is answered 500 with no body on the list,
    get and update routes alike; a lookup that finds nothing is such a
    failure. *)
Theorem repository_failure_is_500 (svc : OrderService) (req : Request) (s : Store) :
  (forall n e s',
     strconv.Atoi (statusParam req) = Some n -> 0 <= n <= 2 ->
     GetOrdersByStatus (repo svc) n s = (Err e, s') ->
     response (serve svc GET_order req s) = mkResponse 500 [])
  /\ (forall id e s',
        strconv.Atoi (idParam req) = Some id ->
        GetOrder (repo svc) (strconv.FormatInt id) s = (Err e, s') ->
        response (serve svc GET_order_id req s) = mkResponse 500 [])
  /\ (forall order id e s',
        unmarshalOrder (reqBody req) = Ok order ->
        strconv.Atoi (OrderID order) = Some id ->
        UpdateOrder (repo svc) (sanitized order id) s = (Err e, s') ->
        response (serve svc PUT_order req s) = mkResponse 500 []).
Proof.
  split; [| split].
  - intros n e s' Hn Hrange Herr.
    destruct (serve_list_cases svc req s)
      as [(Hr & Hc & _) | (n' & Hn' & _ & _ & _ & Hr)].
    + exfalso. rewrite serve_entered in Hc.
      change (routes GET_order) with listOrdersByStatus in Hc.
      pose proof (listOrdersByStatus_accepts svc req s n Hn Hrange) as Hrun.
      rewrite Herr in Hrun. cbn [fst snd] in Hrun.
      destruct (runChain_abort _ _ _ _ Hrun) as (_ & _ & Hcalls);
        [reflexivity | reflexivity |].
      rewrite Hcalls in Hc. discriminate Hc.
    + assert (n' = n) by congruence. subst n'. rewrite Herr in Hr. exact Hr.
  - intros id e s' Hid Herr.
    destruct (serve_get_cases svc req s) as [(Hbad & _) | (id' & Hid' & _ & _ & Hr)];
      [congruence |].
    assert (id' = id) by congruence. subst id'. rewrite Herr in Hr. exact Hr.
  - intros order id e s' Hbody Hid Herr.
    destruct (serve_update_cases svc req s)
      as [(_ & Hc & _) | (order' & id' & Hbody' & Hid' & _ & _ & Hr)].
    + exfalso. rewrite serve_entered in Hc.
      change (routes PUT_order) with updateOrder in Hc.
      pose proof (updateOrder_accepts svc req s order id Hbody Hid) as Hrun.
      rewrite Herr in Hrun. cbn [fst snd] in Hrun.
      destruct (runChain_abort _ _ _ _ Hrun) as (_ & _ & Hcalls);
        [reflexivity | reflexivity |].
      rewrite Hcalls in Hc. discriminate Hc.
    + assert (order' = order) by congruence. subst order'.
      assert (id' = id) by congruence. subst id'.
      rewrite Herr in Hr. exact Hr.
Qed.

(** Two GET /order/:id requests whose identifiers are spellings of the
    same integer (["7"], ["+7"], ["007"]) are served identically: same
    repository call, same answer, same store. *)
Theorem equal_ids_are_served_alike (svc : OrderService) (req1 req2 : Request)
    (s : Store) (id : Z) :
  strconv.Atoi (idParam req1) = Some id ->
  strconv.Atoi (idParam req2) = Some id ->
  response (serve svc GET_order_id req1 s) = response (serve svc GET_order_id req2 s)
  /\ calls (serve svc GET_order_id req1 s) = calls (serve svc GET_order_id req2 s)
  /\ store (serve svc GET_order_id req1 s) = store (serve svc GET_order_id req2 s).
Proof.
  intros H1 H2.
  destruct (serve_get_cases svc req1 s) as [(Hbad & _) | (a & Ha & Hc1 & Hs1 & Hr1)];
    [congruence |].
  destruct (serve_get_cases svc req2 s) as [(Hbad & _) | (b & Hb & Hc2 & Hs2 & Hr2)];
    [congruence |].
  assert (a = id) by congruence. assert (b = id) by congruence. subst a b.
  rewrite Hc1, Hc2, Hs1, Hs2, Hr1, Hr2. auto.
Qed.

(** The status codes of each route: fetch answers 200 or 500, list and get
    answer 200, 400 or 500, update answers 202, 400 or 500; and a body
    is only ever sent with status 200. *)
Theorem serve_status_codes (svc : OrderService) (r : Route) (req : Request)
    (s : Store) :
  In (respCode (response (serve svc r req s)))
     match r with
     | GET_order_fetch => [200; 500]
     | GET_order | GET_order_id => [200; 400; 500]
     | PUT_order => [202; 400; 500]
     end
  /\ (respBody (response (serve svc r req s)) <> [] ->
      respCode (response (serve svc r req s)) = 200).
Proof.
  destruct r.
  - destruct (serve_fetch_cases svc req s) as [(Hr & _) | (batch & orders & Hr & _)];
      rewrite Hr; cbn; split; auto; congruence.
  - destruct (serve_list_cases svc req s)
      as [(Hr & _) | (n & _ & _ & _ & _ & Hr)]; rewrite Hr.
    + cbn; split; auto; congruence.
    + destruct ((GetOrdersByStatus (repo svc) n s).1); cbn; split; auto; congruence.
  - destruct (serve_get_cases svc req s)
      as [(_ & Hr & _) | (id & _ & _ & _ & Hr)]; rewrite Hr.
    + cbn; split; auto; congruence.
    + destruct ((GetOrder (repo svc) (strconv.FormatInt id) s).1);
        cbn; split; auto; congruence.
  - destruct (serve_update_cases svc req s)
      as [(Hr & _) | (order & id & _ & _ & _ & _ & Hr)]; rewrite Hr.
    + cbn; split; auto; congruence.
    + destruct ((UpdateOrder (repo svc) (sanitized order id) s).1);
        cbn; split; auto; congruence.
Qed.

(** One request makes at most one repository call on the list, get and
    update routes and at most two on the fetch route, and the list and
    get routes never call an operation that writes. *)
Theorem serve_call_budget (svc : OrderService) (r : Route) (req : Request)
    (s : Store) :
  (length (List.filter isRepoCall (calls (serve svc r req s)))
   <= match r with GET_order_fetch => 2 | _ => 1 end)%nat
  /\ (r = GET_order \/ r = GET_order_id ->
      List.forallb (fun c => negb (isWrite c)) (calls (serve svc r req s)) = true).
Proof.
  destruct r.
  - split; [| intros [Hr | Hr]; discriminate Hr].
    destruct (serve_fetch_cases svc req s)
      as [(_ & [Hc | (batch & [Hc | Hc])]) | (batch & orders & _ & Hc)];
      rewrite Hc; cbn; lia.
  - destruct (serve_list_cases svc req s)
      as [(_ & Hc & _) | (n & _ & _ & Hc & _)]; rewrite Hc; cbn; split; auto; lia.
  - destruct (serve_get_cases svc req s)
      as [(_ & _ & Hc & _) | (id & _ & Hc & _)]; rewrite Hc; cbn; split; auto; lia.
  - split; [| intros [Hr | Hr]; discriminate Hr].
    destruct (serve_update_cases svc req s)
      as [(_ & Hc & _) | (order & id & _ & _ & Hc & _)]; rewrite Hc; cbn; lia.
Qed.

End HandlerExtras.

(** * The service in the request context *)

Section ContextExtras.
Context `{Collaborators}.

Lemma bind_MustGet_found {A : Type} (F : any -> Handler A) (st : HState)
    (key : string) (v : any) :
  cKeys (ctx st) !! key = Some v ->
  (gin.MustGet key ≫= F) st = F v st.
Proof.
  intros Hkey. unfold mbind, Handler_bind, gin.MustGet. rewrite Hkey. reflexivity.
Qed.

Lemma bind_MustGet_missing {A : Type} (F : any -> Handler A) (st : HState)
    (key : string) :
  cKeys (ctx st) !! key = None ->
  exists msg, (gin.MustGet key ≫= F) st = (Panicked msg, st).
Proof.
  intros Hkey. unfold mbind, Handler_bind, gin.MustGet. rewrite Hkey.
  eexists. reflexivity.
Qed.

Lemma routes_wrong_type (r : Route) (st : HState) (x : string) :
  cKeys (ctx st) !! "orderService" = Some (AnyString x) ->
  routes r st = gin.AbortWithStatus http.StatusInternalServerError st.
Proof.
  intros Hkey.
  destruct r; cbn [routes];
    [unfold fetchOrders | unfold listOrdersByStatus | unfold getOrder
     | unfold updateOrder];
    rewrite (bind_MustGet_found _ _ _ _ Hkey); reflexivity.
Qed.

Lemma routes_missing_key (r : Route) (st : HState) :
  cKeys (ctx st) !! "orderService" = None ->
  exists msg, routes r st = (Panicked msg, st).
Proof.
  intros Hkey.
  destruct r; cbn [routes];
    [unfold fetchOrders | unfold listOrdersByStatus | unfold getOrder
     | unfold updateOrder];
    apply bind_MustGet_missing; exact Hkey.
Qed.

(** Every handler whose context holds something other than an order
    service under ["orderService"] answers 500 and calls nothing: the
    failed type assertion ends the handler. *)
Theorem wrong_service_value_is_500 (r : Route) (keys : gmap string any)
    (req : Request) (s : Store) (x : string) :
  keys !! "orderService" = Some (AnyString x) ->
  response (runChain (routes r) (arrived keys req s)) = mkResponse 500 []
  /\ calls (runChain (routes r) (arrived keys req s)) = []
  /\ store (runChain (routes r) (arrived keys req s)) = s.
Proof.
  intros Hkey.
  destruct (runChain_abort (routes r) (arrived keys req s) (arrived keys req s)
              http.StatusInternalServerError) as (Hresp & Hstore & Hcalls).
  - apply (routes_wrong_type r (arrived keys req s) x). exact Hkey.
  - reflexivity.
  - reflexivity.
  - auto.
Qed.

(** Every handler run without the middleware (no ["orderService"] key)
    panics in [MustGet]; the engine answers 500 and nothing is called. *)
Theorem missing_service_is_500 (r : Route) (keys : gmap string any)
    (req : Request) (s : Store) :
  keys !! "orderService" = None ->
  response (runChain (routes r) (arrived keys req s)) = mkResponse 500 []
  /\ calls (runChain (routes r) (arrived keys req s)) = []
  /\ store (runChain (routes r) (arrived keys req s)) = s.
Proof.
  intros Hkey.
  destruct (routes_missing_key r (arrived keys req s) Hkey) as [msg Hrun].
  destruct (runChain_panic (routes r) _ (arrived keys req s) msg Hrun)
    as (Hresp & Hstore & Hcalls); [reflexivity |].
  auto.
Qed.

(** *** The handler whose route is commented out *)

Lemma serveListOrders_entered (svc : OrderService) (req : Request) (s : Store) :
  serveListOrders svc req s = runChain listOrders (entered svc req s).
Proof. reflexivity. Qed.

(** [listOrders] has no range check: with no status it asks for the
    pending orders, with any status that parses (in 0..2 or not) it asks
    for the orders of that status, and only a status that does not parse
    is answered 400. *)
Theorem listOrders_forwards_any_status (svc : OrderService) (req : Request)
    (s : Store) :
  (statusParam req = EmptyString ->
   calls (serveListOrders svc req s) = [CallGetPendingOrders])
  /\ (forall n, strconv.Atoi (statusParam req) = Some n ->
      calls (serveListOrders svc req s) = [CallGetOrdersByStatus n])
  /\ (statusParam req <> EmptyString ->
      strconv.Atoi (statusParam req) = None ->
      response (serveListOrders svc req s) = mkResponse 400 []
      /\ calls (serveListOrders svc req s) = []).
Proof.
  rewrite serveListOrders_entered.
  assert (Hrun : listOrders (entered svc req s) = listOrders (entered svc req s))
    by reflexivity.
  unfold listOrders at 2 in Hrun.
  rewrite bind_MustGet_entered in Hrun. cbn [asOrderService] in Hrun.
  rewrite bind_Query in Hrun. cbn [entered ctx cRequest] in Hrun.
  fold (statusParam req) in Hrun. fold (entered svc req s) in Hrun.
  destruct (String.eqb_spec (statusParam req) EmptyString) as [Hempty | Hfull];
    cbn [negb] in Hrun.
  - rewrite bind_call in Hrun. cbn [entered store calls ctx app] in Hrun.
    split; [| split].
    + intros _.
      destruct ((GetPendingOrders (repo svc) s).1) as [orders | e].
      * destruct (runChain_json _ _ _ _ _ Hrun) as (_ & _ & Hcalls);
          [reflexivity | reflexivity | reflexivity |]. exact Hcalls.
      * destruct (runChain_abort _ _ _ _ Hrun) as (_ & _ & Hcalls);
          [reflexivity | reflexivity |]. exact Hcalls.
    + intros n Hn. rewrite Hempty in Hn. discriminate Hn.
    + intros Hne. contradiction.
  - split; [| split].
    + intros Hempty. contradiction.
    + intros n Hn. rewrite Hn in Hrun.
      rewrite bind_call in Hrun. cbn [entered store calls ctx app] in Hrun.
      destruct ((GetOrdersByStatus (repo svc) n s).1) as [orders | e].
      * destruct (runChain_json _ _ _ _ _ Hrun) as (_ & _ & Hcalls);
          [reflexivity | reflexivity | reflexivity |]. exact Hcalls.
      * destruct (runChain_abort _ _ _ _ Hrun) as (_ & _ & Hcalls);
          [reflexivity | reflexivity |]. exact Hcalls.
    + intros _ Hbad. rewrite Hbad in Hrun.
      destruct (runChain_abort _ _ _ _ Hrun) as (Hresp & _ & Hcalls);
        [reflexivity | reflexivity |]. auto.
Qed.

End ContextExtras.

(** * Identifiers *)

Section IdentifierExtras.
Context `{Collaborators}.

Lemma digit_test_isDigit (c : ascii) :
  (9 <? (Z.of_N (N_of_ascii c) - 48) mod 256) = negb (isDigit c).
Proof.
  destruct c as [b0 b1 b2 b3 b4 b5 b6 b7].
  destruct b0, b1, b2, b3, b4, b5, b6, b7; reflexivity.
Qed.

Lemma parseDigits_allDigits (s : string) :
  forall a n, strconv.parseDigits s a = Some n -> allDigits s = true.
Proof.
  induction s as [| c s IH]; intros a n Hparse; [reflexivity |].
  cbn [strconv.parseDigits] in Hparse. cbv zeta in Hparse.
  rewrite digit_test_isDigit in Hparse. cbn [allDigits].
  destruct (isDigit c); cbn [negb andb] in *; [| discriminate Hparse].
  apply (IH _ _ Hparse).
Qed.

(** What [Atoi] accepts is an optional sign followed by digits only, at
    least one. *)
Lemma Atoi_allDigits (s : string) (n : Z) :
  strconv.Atoi s = Some n ->
  allDigits (dropSign s) = true /\ dropSign s <> EmptyString.
Proof.
  unfold strconv.Atoi, dropSign. destruct s as [| s0 rest]; [discriminate |].
  destruct (Ascii.eqb s0 "-" || Ascii.eqb s0 "+").
  - destruct rest as [| c r]; [discriminate |].
    destruct (strconv.parseDigits (String c r) 0) as [u |] eqn:Hparse;
      [| discriminate].
    intros _. split; [apply (parseDigits_allDigits _ _ _ Hparse) | discriminate].
  - destruct (strconv.parseDigits (String s0 rest) 0) as [u |] eqn:Hparse;
      [| discriminate].
    intros _. split; [apply (parseDigits_allDigits _ _ _ Hparse) | discriminate].
Qed.

(** An identifier with a character that is not a decimal digit, after an
    optional sign, is answered 400 without a repository call, in the
    path of GET /order/:id and in the body of PUT /order alike. *)
Theorem non_digit_id_is_400 (svc : OrderService) (req : Request) (s : Store) :
  (allDigits (dropSign (idParam req)) = false ->
   response (serve svc GET_order_id req s) = mkResponse 400 []
   /\ calls (serve svc GET_order_id req s) = [])
  /\ (forall order,
        unmarshalOrder (reqBody req) = Ok order ->
        allDigits (dropSign (OrderID order)) = false ->
        response (serve svc PUT_order req s) = mkResponse 400 []
        /\ calls (serve svc PUT_order req s) = []).
Proof.
  split.
  - intros Hbad.
    destruct (serve_get_cases svc req s) as [(_ & Hr & Hc & _) | (id & Hid & _)];
      [auto |].
    destruct (Atoi_allDigits _ _ Hid) as [Hdigits _]. congruence.
  - intros order Hbody Hbad.
    destruct (serve_update_cases svc req s)
      as [(Hr & Hc & _) | (order' & id & Hbody' & Hid & _)]; [auto |].
    assert (order' = order) by congruence. subst order'.
    destruct (Atoi_allDigits _ _ Hid) as [Hdigits _]. congruence.
Qed.

(** Two accepted identifiers that reach the repository as the same text
    stand for the same integer: formatting never merges two orders. *)
Theorem distinct_ints_get_distinct_ids (p q : string) (a b : Z) :
  strconv.Atoi p = Some a ->
  strconv.Atoi q = Some b ->
  strconv.FormatInt a = strconv.FormatInt b ->
  a = b.
Proof.
  intros Ha Hb Hsame.
  pose proof (Atoi_FormatInt a (Atoi_in_range _ _ Ha)) as Hra.
  pose proof (Atoi_FormatInt b (Atoi_in_range _ _ Hb)) as Hrb.
  rewrite Hsame in Hra. congruence.
Qed.

End IdentifierExtras.

(** * Further properties of start-up *)

Section StartupExtras.
Context `{Collaborators}.

Lemma last_cons {A : Type} (l : list A) (a d : A) :
  List.last (a :: l) d = List.last l a.
Proof.
  revert a d. induction l as [| b l IH]; intros a d; [reflexivity |].
  change (List.last (a :: b :: l) d) with (List.last (b :: l) d).
  rewrite (IH b d), (IH b a). reflexivity.
Qed.

(** The fallback loop when every fallback name is set: all of them are
    read and the last one gives the value. *)
Lemma fallbackLoop_all_set (env : gmap string string) (fbs : list string) :
  forall v log,
    Forall (fun n => os.valueOf env n <> EmptyString) fbs ->
    fallbackLoop fbs v env log
    = (Running (List.last (List.map (os.valueOf env) fbs) v),
       (log ++ List.map ReadEnv fbs)%list).
Proof.
  induction fbs as [| f rest IH]; intros v log Hall.
  - cbn. rewrite app_nil_r. reflexivity.
  - inversion_clear Hall as [| ? ? Hf Hrest].
    cbn [fallbackLoop]. unfold mbind, Startup_bind, os.Getenv.
    destruct (String.eqb_spec (os.valueOf env f) EmptyString) as [He | _];
      [contradiction |].
    rewrite (IH _ _ Hrest). cbn [List.map]. rewrite last_cons.
    rewrite <- app_assoc. reflexivity.
Qed.

(** The fallback loop when some fallback name is empty: it stops there
    with the empty value. *)
Lemma fallbackLoop_some_empty (env : gmap string string) (fbs : list string) :
  forall v log,
    Exists (fun n => os.valueOf env n = EmptyString) fbs ->
    exists reads,
      fallbackLoop fbs v env log = (Running EmptyString, (log ++ reads)%list).
Proof.
  induction fbs as [| f rest IH]; intros v log Hex.
  - inversion Hex.
  - cbn [fallbackLoop]. unfold mbind, Startup_bind, os.Getenv.
    destruct (String.eqb_spec (os.valueOf env f) EmptyString) as [He | Hne].
    + exists [ReadEnv f]. unfold mret, Startup_ret. rewrite He. reflexivity.
    + inversion_clear Hex as [? ? Hf | ? ? Hrest]; [contradiction |].
      destruct (IH (os.valueOf env f) (log ++ [ReadEnv f])%list Hrest) as [reads Hrun].
      exists (ReadEnv f :: reads). rewrite Hrun. rewrite <- app_assoc. reflexivity.
Qed.

Lemma set_or_empty (env : gmap string string) (fbs : list string) :
  Forall (fun n => os.valueOf env n <> EmptyString) fbs
  \/ Exists (fun n => os.valueOf env n = EmptyString) fbs.
Proof.
  induction fbs as [| f rest [IH | IH]].
  - left. constructor.
  - destruct (String.eqb_spec (os.valueOf env f) EmptyString) as [He | Hne].
    + right. constructor. exact He.
    + left. constructor; assumption.
  - right. apply Exists_cons_tl. exact IH.
Qed.

(** A variable that is set is returned as it is, and no fallback name is
    read. *)
Theorem getEnvVar_prefers_own_name (env : gmap string string) (varName : string)
    (fallbackVarNames : list string) (log : list StartupEvent) :
  os.valueOf env varName <> EmptyString ->
  getEnvVar varName fallbackVarNames env log
  = (Running (os.valueOf env varName), (log ++ [ReadEnv varName])%list).
Proof.
  intros Hset. unfold getEnvVar, mbind, Startup_bind, os.Getenv.
  destruct (String.eqb_spec (os.valueOf env varName) EmptyString);
    [contradiction | reflexivity].
Qed.

(** [getEnvVar] never hands back an empty value: what it returns is set. *)
Theorem getEnvVar_never_empty (env : gmap string string) (varName : string)
    (fallbackVarNames : list string) (log log' : list StartupEvent) (v : string) :
  getEnvVar varName fallbackVarNames env log = (Running v, log') ->
  v <> EmptyString.
Proof.
  unfold getEnvVar, mbind, Startup_bind, os.Getenv, os.Exit, mret, Startup_ret.
  destruct (String.eqb_spec (os.valueOf env varName) EmptyString) as [He | Hne].
  - destruct (fallbackLoop fallbackVarNames (os.valueOf env varName) env
                (log ++ [ReadEnv varName])%list) as [[v' | c] l'].
    + destruct (String.eqb_spec v' EmptyString); [discriminate |].
      intros [= <- _]. assumption.
    + discriminate.
  - intros [= <- _]. assumption.
Qed.

(** When [getEnvVar] ends the process: exactly when the variable is empty
    and either there is no fallback name or one of the fallback names is
    empty, whatever the other fallback names hold; the exit code is 1. *)
Theorem getEnvVar_exits_iff (env : gmap string string) (varName : string)
    (fallbackVarNames : list string) (log : list StartupEvent) :
  (exists code log',
     getEnvVar varName fallbackVarNames env log = (Exited code, log'))
  <-> (os.valueOf env varName = EmptyString
       /\ (fallbackVarNames = []
           \/ Exists (fun n => os.valueOf env n = EmptyString) fallbackVarNames)).
Proof.
  unfold getEnvVar, mbind, Startup_bind, os.Getenv, os.Exit, mret, Startup_ret.
  destruct (String.eqb_spec (os.valueOf env varName) EmptyString) as [He | Hne].
  - destruct (set_or_empty env fallbackVarNames) as [Hall | Hex].
    + rewrite (fallbackLoop_all_set env fallbackVarNames _ _ Hall).
      destruct fallbackVarNames as [| f rest].
      * cbn [List.map List.last]. rewrite He. cbn [String.eqb].
        split; [auto | intros _; eauto].
      * assert (Hlast : List.last (List.map (os.valueOf env) (f :: rest))
                          (os.valueOf env varName) <> EmptyString).
        { cbn [List.map]. rewrite last_cons.
          inversion_clear Hall as [| ? ? Hf Hrest]. clear He.
          revert f Hf. induction rest as [| g rest IH]; intros f Hf; [exact Hf |].
          cbn [List.map]. rewrite last_cons.
          inversion_clear Hrest as [| ? ? Hg Hrest']. apply IH; assumption. }
        destruct (String.eqb_spec
                    (List.last (List.map (os.valueOf env) (f :: rest))
                       (os.valueOf env varName)) EmptyString); [contradiction |].
        split.
        -- intros (code & log' & Hrun). discriminate Hrun.
        -- intros (_ & [Hnil | Hex]); [discriminate Hnil |].
           exfalso. apply Exists_exists in Hex. destruct Hex as (x & Hin & Hx).
           rewrite Forall_forall in Hall. apply (Hall x Hin Hx).
    + destruct (fallbackLoop_some_empty env fallbackVarNames
                  (os.valueOf env varName) (log ++ [ReadEnv varName])%list Hex)
        as [reads Hrun].
      rewrite Hrun. cbn [String.eqb]. split; [auto | intros _; eauto].
  - split.
    + intros (code & log' & Hrun). discriminate Hrun.
    + intros [He _]. contradiction.
Qed.

(** With the variable empty and every fallback name set, the value is
    that of the last fallback name, not of the first. *)
Theorem getEnvVar_last_fallback_wins (env : gmap string string) (varName : string)
    (fallbackVarNames : list string) (log : list StartupEvent) :
  os.valueOf env varName = EmptyString ->
  fallbackVarNames <> [] ->
  Forall (fun n => os.valueOf env n <> EmptyString) fallbackVarNames ->
  getEnvVar varName fallbackVarNames env log
  = (Running (os.valueOf env (List.last fallbackVarNames EmptyString)),
     (log ++ ReadEnv varName :: List.map ReadEnv fallbackVarNames)%list).
Proof.
  intros He Hnonempty Hall.
  unfold getEnvVar, mbind, Startup_bind, os.Getenv, os.Exit, mret, Startup_ret.
  destruct (String.eqb_spec (os.valueOf env varName) EmptyString) as [_ | Hne];
    [| contradiction].
  rewrite (fallbackLoop_all_set env fallbackVarNames _ _ Hall).
  assert (Hlast : List.last (List.map (os.valueOf env) fallbackVarNames)
                    (os.valueOf env varName)
                  = os.valueOf env (List.last fallbackVarNames EmptyString)).
  { destruct fallbackVarNames as [| f rest]; [contradiction |].
    clear Hnonempty Hall. cbn [List.map]. rewrite !last_cons.
    revert f. induction rest as [| g rest IH]; intros f; [reflexivity |].
    cbn [List.map]. rewrite !last_cons. apply IH. }
  rewrite Hlast.
  assert (Hset : os.valueOf env (List.last fallbackVarNames EmptyString)
                 <> EmptyString).
  { rewrite Forall_forall in Hall. apply Hall.
    destruct fallbackVarNames as [| f rest]; [contradiction |].
    apply list_elem_of_In. clear. rewrite last_cons.
    revert f. induction rest as [| g rest IH]; intros f; [left; reflexivity |].
    rewrite last_cons. right. apply IH. }
  destruct (String.eqb_spec
              (os.valueOf env (List.last fallbackVarNames EmptyString)) EmptyString);
    [contradiction |].
  rewrite <- app_assoc. reflexivity.
Qed.

End StartupExtras.

(** * The factory and [main] beyond the selection *)

Section FactoryExtras.
Context `{Collaborators}.

Ltac startup_unfold :=
  cbv beta iota zeta delta
    [main initDatabase getEnvVar fallbackLoop os.Getenv os.Exit construct wrap
     mbind Startup_bind mret Startup_ret settingValue firstSet fst snd].

Ltac startup_tests :=
  repeat
    (match goal with
     | |- context [String.eqb (os.valueOf ?env ?n) ?v] =>
         destruct (String.eqb_spec (os.valueOf env n) v)
     end;
     change (String.eqb "false" "true") with false;
     cbv beta iota zeta).

Ltac startup_constructors :=
  repeat
    (match goal with
     | |- context [NewMongoDBOrderRepo ?a ?b ?c ?d ?e] =>
         destruct (NewMongoDBOrderRepo a b c d e) eqn:?
     | |- context [NewCosmosDBOrderRepo ?a ?b ?c ?d ?e] =>
         destruct (NewCosmosDBOrderRepo a b c d e) eqn:?
     | |- context [NewCosmosDBOrderRepoWithManagedIdentity ?a ?b ?c ?d] =>
         destruct (NewCosmosDBOrderRepoWithManagedIdentity a b c d) eqn:?
     end;
     cbv beta iota zeta).

Ltac not_read :=
  let Hin := fresh "Hin" in
  cbn; intros Hin;
  repeat (destruct Hin as [Hin | Hin]; [discriminate Hin |]);
  exact Hin.

(** When AZURE_COSMOS_RESOURCEENDPOINT is set it is the store URI of
    whichever backend is built, and ORDER_DB_URI is not even read. *)
Theorem initDatabase_prefers_cosmos_endpoint (env : gmap string string)
    (apiType : string) :
  os.valueOf env "AZURE_COSMOS_RESOURCEENDPOINT" <> EmptyString ->
  ~ In "ORDER_DB_URI" (readsOf (initDatabase apiType env []).2)
  /\ Forall (fun ev => uriOf ev = os.valueOf env "AZURE_COSMOS_RESOURCEENDPOINT")
            (constructions (initDatabase apiType env []).2).
Proof.
  intros Hset. startup_unfold.
  destruct (String.eqb apiType AZURE_COSMOS_DB_SQL_API);
    startup_tests; try contradiction;
    (split; [not_read | cbn; repeat constructor]).
Qed.

(** The document-store branch takes the user name and the password as
    they are, empty when unset, and reads no setting of the partitioned
    branch. *)
Theorem initDatabase_mongo_credentials_optional (env : gmap string string)
    (apiType : string) :
  apiType <> AZURE_COSMOS_DB_SQL_API ->
  Forall (fun k => ~ absent env k) (requiredSettings apiType) ->
  exists r log,
    initDatabase apiType env [] = (Running r, log)
    /\ constructions log
       = [ConstructMongo
            (settingValue env ("AZURE_COSMOS_RESOURCEENDPOINT", ["ORDER_DB_URI"]))
            (os.valueOf env "ORDER_DB_NAME")
            (os.valueOf env "ORDER_DB_COLLECTION_NAME")
            (os.valueOf env "ORDER_DB_USERNAME")
            (os.valueOf env "ORDER_DB_PASSWORD")]
    /\ incl (readsOf log)
            ["AZURE_COSMOS_RESOURCEENDPOINT"; "ORDER_DB_URI"; "ORDER_DB_NAME";
             "ORDER_DB_COLLECTION_NAME"; "ORDER_DB_USERNAME"; "ORDER_DB_PASSWORD"].
Proof.
  intros Hapi Hall. unfold requiredSettings in Hall. startup_unfold.
  destruct (String.eqb_spec apiType AZURE_COSMOS_DB_SQL_API) as [Heq | _];
    [contradiction |].
  cbn [app] in Hall.
  repeat match goal with
         | Hf : Forall _ (_ :: _) |- _ => inversion_clear Hf
         | Hf : Forall _ [] |- _ => clear Hf
         end.
  startup_tests;
    try match goal with
        | Hk : ~ absent _ _ |- _ =>
            solve [exfalso; apply Hk; split; cbn [fst snd];
                   [assumption | repeat constructor; assumption]]
        end;
    (do 2 eexists; split; [reflexivity |]; split; [reflexivity |];
     cbn; intros name Hname; cbn;
     repeat (destruct Hname as [<- | Hname]; [auto 10 |]); destruct Hname).
Qed.

(** A service that [main] goes on with comes from exactly one constructor
    call, and that call succeeded. *)
Theorem main_serves_a_constructed_repository (env : gmap string string)
    (svc : OrderService) (log : list StartupEvent) :
  main env [] = (Running svc, log) ->
  exists ev repo,
    constructions log = [ev]
    /\ constructed ev = Some (Ok repo)
    /\ svc = NewOrderService repo.
Proof.
  startup_unfold.
  startup_tests; startup_constructors;
    intros Hrun; try discriminate Hrun;
    injection Hrun as <- <-;
    (do 2 eexists; split; [reflexivity |]; split; [| reflexivity];
     cbn [constructed]; f_equal; eassumption).
Qed.

(** [main] ends the process only with exit code 1, and only in two
    situations: before any constructor was called (a required setting is
    missing), or after the one constructor it called returned an error. *)
Theorem main_exits_with_1 (env : gmap string string) (code : Z)
    (log : list StartupEvent) :
  main env [] = (Exited code, log) ->
  code = 1
  /\ (constructions log = []
      \/ exists ev e, constructions log = [ev] /\ constructed ev = Some (Err e)).
Proof.
  startup_unfold.
  startup_tests; startup_constructors;
    intros Hrun; try discriminate Hrun;
    injection Hrun as <- <-;
    (split; [reflexivity |]);
    first [ left; reflexivity
          | right; do 2 eexists; split; [reflexivity |];
            cbn [constructed]; f_equal; eassumption ].
Qed.

(** The backend follows ORDER_DB_API: whatever [main] constructs is a
    CosmosDB repository exactly when the variable is ["cosmosdbsql"]; with
    any other value, and with the variable unset, it is the MongoDB one. *)
Theorem main_selects_by_ORDER_DB_API (env : gmap string string) :
  Forall (fun ev =>
            (isCosmos ev = true <-> os.valueOf env "ORDER_DB_API" = "cosmosdbsql")
            /\ (isMongo ev = true <-> os.valueOf env "ORDER_DB_API" <> "cosmosdbsql"))
         (constructions (main env []).2).
Proof.
  startup_unfold. change AZURE_COSMOS_DB_SQL_API with "cosmosdbsql".
  startup_tests; startup_constructors; cbn;
    repeat constructor; intros; cbn in *; congruence.
Qed.

End FactoryExtras.

(** * The further properties at concrete requests and configurations *)

Section ConcreteExtras.
#[local] Existing Instance Demo.collaborators.

Ltac setting_is_present :=
  let Hown := fresh "Hown" in
  let Hfb := fresh "Hfb" in
  intros [Hown Hfb];
  first [ discriminate Hown
        | inversion Hfb as [| ? ? Hfirst ?]; discriminate Hfirst ].

Lemma getOrder_rejects_bad_id_witness :
  response (serve Demo.service GET_order_id
              (Demo.request ∅ [("id", "abc")] "") Demo.seeded)
  = mkResponse 400 [].
Proof.
  destruct (getOrder_rejects_bad_id Demo.service
              (Demo.request ∅ [("id", "abc")] "") Demo.seeded eq_refl)
    as (Hresp & _).
  exact Hresp.
Defined.

Lemma getOrder_returns_order_witness :
  response (serve Demo.service GET_order_id
              (Demo.request ∅ [("id", "007")] "") Demo.seeded)
  = mkResponse 200 [Demo.jsonOrder Demo.order7].
Proof.
  destruct (getOrder_returns_order Demo.service
              (Demo.request ∅ [("id", "007")] "") Demo.seeded Demo.seeded
              7 Demo.order7 eq_refl eq_refl) as (Hresp & _).
  exact Hresp.
Defined.

Lemma repository_failure_is_500_witness :
  response (serve Demo.brokenService GET_order
              (Demo.request {[ "status" := ["1"] ]} [] "") Demo.seeded)
  = mkResponse 500 []
  /\ response (serve Demo.service GET_order_id
                 (Demo.request ∅ [("id", "8")] "") Demo.seeded)
     = mkResponse 500 []
  /\ response (serve Demo.service PUT_order
                 (Demo.request ∅ [] "8|alice|2") Demo.seeded)
     = mkResponse 500 [].
Proof.
  split; [| split].
  - destruct (repository_failure_is_500 Demo.brokenService
                (Demo.request {[ "status" := ["1"] ]} [] "") Demo.seeded)
      as (Hlist & _ & _).
    apply (Hlist 1 "connection refused" Demo.seeded eq_refl ltac:(lia) eq_refl).
  - destruct (repository_failure_is_500 Demo.service
                (Demo.request ∅ [("id", "8")] "") Demo.seeded)
      as (_ & Hget & _).
    apply (Hget 8 "not found" Demo.seeded eq_refl eq_refl).
  - destruct (repository_failure_is_500 Demo.service
                (Demo.request ∅ [] "8|alice|2") Demo.seeded)
      as (_ & _ & Hput).
    apply (Hput (mkOrder "8" "alice" [] 2) 8 "not found" Demo.seeded
             eq_refl eq_refl eq_refl).
Defined.

Lemma equal_ids_are_served_alike_witness :
  response (serve Demo.service GET_order_id
              (Demo.request ∅ [("id", "7")] "") Demo.seeded)
  = response (serve Demo.service GET_order_id
                (Demo.request ∅ [("id", "+007")] "") Demo.seeded).
Proof.
  destruct (equal_ids_are_served_alike Demo.service
              (Demo.request ∅ [("id", "7")] "")
              (Demo.request ∅ [("id", "+007")] "") Demo.seeded 7
              eq_refl eq_refl) as (Hresp & _).
  exact Hresp.
Defined.

Lemma serve_status_codes_witness :
  respCode (response (serve Demo.service GET_order
                        (Demo.request {[ "status" := ["0"] ]} [] "") Demo.seeded))
  = 200.
Proof.
  destruct (serve_status_codes Demo.service GET_order
              (Demo.request {[ "status" := ["0"] ]} [] "") Demo.seeded)
    as (_ & Hbody).
  apply Hbody. discriminate.
Defined.

Lemma serve_call_budget_witness :
  List.forallb (fun c => negb (isWrite c))
    (calls (serve Demo.service GET_order_id
              (Demo.request ∅ [("id", "7")] "") Demo.seeded)) = true.
Proof.
  destruct (serve_call_budget Demo.service GET_order_id
              (Demo.request ∅ [("id", "7")] "") Demo.seeded) as (_ & Hreads).
  apply Hreads. right. reflexivity.
Defined.

Lemma wrong_service_value_is_500_witness :
  response (runChain (routes GET_order)
              (@arrived Demo.collaborators
                 {[ "orderService" := Demo.anyString "oops" ]}
                 (Demo.request {[ "status" := ["0"] ]} [] "") Demo.seeded))
  = mkResponse 500 [].
Proof.
  destruct (@wrong_service_value_is_500 Demo.collaborators GET_order
              {[ "orderService" := Demo.anyString "oops" ]}
              (Demo.request {[ "status" := ["0"] ]} [] "") Demo.seeded "oops")
    as (Hresp & _); [vm_compute; reflexivity |].
  exact Hresp.
Defined.

Lemma missing_service_is_500_witness :
  response (runChain (routes PUT_order)
              (@arrived Demo.collaborators ∅
                 (Demo.request ∅ [] "7|alice|2") Demo.seeded))
  = mkResponse 500 []
  /\ calls (runChain (routes PUT_order)
              (@arrived Demo.collaborators ∅
                 (Demo.request ∅ [] "7|alice|2") Demo.seeded)) = [].
Proof.
  destruct (@missing_service_is_500 Demo.collaborators PUT_order ∅
              (Demo.request ∅ [] "7|alice|2") Demo.seeded)
    as (Hresp & Hcalls & _); [vm_compute; reflexivity |].
  split; [exact Hresp | exact Hcalls].
Defined.

Lemma listOrders_forwards_any_status_witness :
  calls (serveListOrders Demo.service
           (Demo.request {[ "status" := ["7"] ]} [] "") Demo.seeded)
  = [Demo.callGetOrdersByStatus 7]
  /\ calls (serveListOrders Demo.service (Demo.request ∅ [] "") Demo.seeded)
     = [Demo.callGetPendingOrders]
  /\ response (serveListOrders Demo.service
                 (Demo.request {[ "status" := ["x"] ]} [] "") Demo.seeded)
     = mkResponse 400 [].
Proof.
  split; [| split].
  - destruct (listOrders_forwards_any_status Demo.service
                (Demo.request {[ "status" := ["7"] ]} [] "") Demo.seeded)
      as (_ & Hany & _).
    apply (Hany 7 eq_refl).
  - destruct (listOrders_forwards_any_status Demo.service
                (Demo.request ∅ [] "") Demo.seeded) as (Hnone & _ & _).
    apply Hnone. reflexivity.
  - destruct (listOrders_forwards_any_status Demo.service
                (Demo.request {[ "status" := ["x"] ]} [] "") Demo.seeded)
      as (_ & _ & Hbad).
    apply Hbad; [discriminate | reflexivity].
Defined.

Lemma non_digit_id_is_400_witness :
  response (serve Demo.service GET_order_id
              (Demo.request ∅ [("id", "12a")] "") Demo.seeded)
  = mkResponse 400 []
  /\ response (serve Demo.service PUT_order
                 (Demo.request ∅ [] "7.0|alice|2") Demo.seeded)
     = mkResponse 400 [].
Proof.
  split.
  - destruct (non_digit_id_is_400 Demo.service
                (Demo.request ∅ [("id", "12a")] "") Demo.seeded) as (Hget & _).
    apply Hget. reflexivity.
  - destruct (non_digit_id_is_400 Demo.service
                (Demo.request ∅ [] "7.0|alice|2") Demo.seeded) as (_ & Hput).
    apply (Hput (mkOrder "7.0" "alice" [] 2) eq_refl eq_refl).
Defined.

Lemma distinct_ints_get_distinct_ids_witness : 7 = 7.
Proof.
  apply (distinct_ints_get_distinct_ids "7" "+007" 7 7 eq_refl eq_refl eq_refl).
Defined.

Lemma listOrdersByStatus_guards_status_witness : validStatus 1 = true.
Proof.
  apply (listOrdersByStatus_guards_status Demo.service
           (Demo.request {[ "status" := ["1"] ]} [] "") Demo.seeded 1).
  left. reflexivity.
Defined.

Lemma getEnvVar_prefers_own_name_witness :
  getEnvVar "ORDER_DB_NAME" ["ORDER_DB_URI"] Demo.mongoEnv []
  = (Running "orders", [ReadEnv "ORDER_DB_NAME"]).
Proof.
  apply (getEnvVar_prefers_own_name Demo.mongoEnv "ORDER_DB_NAME"
           ["ORDER_DB_URI"] []).
  discriminate.
Defined.

Lemma getEnvVar_never_empty_witness : "mongodb://db.example" <> EmptyString.
Proof.
  apply (getEnvVar_never_empty Demo.mongoEnv "AZURE_COSMOS_RESOURCEENDPOINT"
           ["ORDER_DB_URI"] []
           [ReadEnv "AZURE_COSMOS_RESOURCEENDPOINT"; ReadEnv "ORDER_DB_URI"]
           "mongodb://db.example").
  reflexivity.
Defined.

(** With two fallback names, the first set and the second not, the
    process ends although a value was found. *)
Example getEnvVar_gives_up_on_a_later_fallback :
  getEnvVar "PRIMARY" ["FIRST"; "SECOND"] Demo.firstFallbackEnv []
  = (Exited 1, [ReadEnv "PRIMARY"; ReadEnv "FIRST"; ReadEnv "SECOND"]).
Proof. vm_compute. reflexivity. Qed.

Lemma getEnvVar_last_fallback_wins_witness :
  getEnvVar "PRIMARY" ["FIRST"; "SECOND"] Demo.bothFallbacksEnv []
  = (Running "two", [ReadEnv "PRIMARY"; ReadEnv "FIRST"; ReadEnv "SECOND"]).
Proof.
  apply (getEnvVar_last_fallback_wins Demo.bothFallbacksEnv "PRIMARY"
           ["FIRST"; "SECOND"] []).
  - reflexivity.
  - discriminate.
  - repeat constructor; discriminate.
Defined.

Lemma initDatabase_prefers_cosmos_endpoint_witness :
  ~ In "ORDER_DB_URI" (readsOf (initDatabase "mongodb" Demo.bothUrisEnv []).2)
  /\ Forall (fun ev => uriOf ev = "https://cosmos.example")
            (constructions (initDatabase "mongodb" Demo.bothUrisEnv []).2).
Proof.
  apply (initDatabase_prefers_cosmos_endpoint Demo.bothUrisEnv "mongodb").
  discriminate.
Defined.

Lemma initDatabase_mongo_credentials_optional_witness :
  exists r log,
    initDatabase "mongodb" Demo.mongoEnv [] = (Running r, log)
    /\ constructions log
       = [ConstructMongo "mongodb://db.example" "orders" "orders"
            EmptyString EmptyString].
Proof.
  destruct (initDatabase_mongo_credentials_optional Demo.mongoEnv "mongodb")
    as (r & log & Hrun & Hbuilt & _).
  - discriminate.
  - repeat constructor; setting_is_present.
  - exists r, log. split; [exact Hrun | exact Hbuilt].
Defined.

Lemma main_serves_a_constructed_repository_witness :
  exists ev repo,
    constructions (main Demo.mongoEnv []).2 = [ev]
    /\ constructed ev = Some (Ok repo)
    /\ Demo.service = NewOrderService repo.
Proof.
  apply (main_serves_a_constructed_repository Demo.mongoEnv Demo.service
           (main Demo.mongoEnv []).2).
  reflexivity.
Defined.

Lemma main_exits_with_1_witness :
  exists ev e,
    constructions (main Demo.noPasswordEnv []).2 = [ev]
    /\ constructed ev = Some (Err e).
Proof.
  destruct (main_exits_with_1 Demo.noPasswordEnv 1 (main Demo.noPasswordEnv []).2)
    as (_ & [Hnone | Hfailed]).
  - vm_compute. reflexivity.
  - discriminate Hnone.
  - exact Hfailed.
Defined.

(** With ORDER_DB_API unset, [main] builds the MongoDB backend. *)
Example main_defaults_to_mongo :
  constructions (main Demo.mongoEnv []).2
  = [ConstructMongo "mongodb://db.example" "orders" "orders"
       EmptyString EmptyString].
Proof. vm_compute. reflexivity. Qed.

End ConcreteExtras.
